(** * Tick-Tock: the time-tracking core of [tick_tock_widget/project_data.py]

    A shallow embedding of [TimeRecord], [SubActivity], [Project] and
    [ProjectDataManager], and the properties of the timer state machine
    and of the persistent store that are stated about them.

    Conventions of the embedding.
    - A [datetime] is the number of microseconds since a fixed epoch
      ([Z]); [timedelta.total_seconds()] of a difference [d] is the
      rational [d / 10^6].  [last_started] holds [datetime.isoformat()]
      text in the source and is read back with [fromisoformat], which
      is exact on what [isoformat] prints, so the record keeps the
      timestamp itself.
    - [datetime.now()] and [date.today()] are arguments [now] and
      [today] of every operation that reads the clock: one operation of
      the store sees one clock reading.
    - A [dict] keyed by date is a [gmap string _]; a Python list is a
      [list]; an object held in a list and mutated through a reference
      is updated in place in that list ([alter]).
    - The data file is what [json.load] makes of it; the backup
      directory is the set of its file names; the outcome of each file
      operation of a save (success or OSError) is an argument of the
      save.  Exceptions the source lets escape are results ([Raise]). *)

From Stdlib Require Import ZArith Lia DecimalString DecimalZ.
From stdpp Require Import gmap strings list fin_maps sorting.

Local Open Scope Z_scope.

(** ** Python arithmetic used by the source *)

(** [round(x)] for the float [x = us / 10^6]: nearest integer, ties to
    the even one. *)
Definition py_round (us : Z) : Z :=
  let q := us / 1000000 in
  let r := us mod 1000000 in
  if 2 * r <? 1000000 then q
  else if 1000000 <? 2 * r then q + 1
  else if Z.even q then q else q + 1.

(** [max(1, round(elapsed))] *)
Definition elapsed_seconds (start_time now : Z) : Z :=
  Z.max 1 (py_round (now - start_time)).

(** ** TimeRecord *)

Record TimeRecord := mkTimeRecord {
  date : string;
  total_seconds : Z;
  last_started : option Z;
  is_running : bool;
  sub_activity_seconds : gmap string Z
}.

(** [TimeRecord(date=today)]: the defaults of the dataclass. *)
Definition new_record (d : string) : TimeRecord :=
  mkTimeRecord d 0 None false ∅.

Definition add_time (seconds : Z) (r : TimeRecord) : TimeRecord :=
  mkTimeRecord (date r) (total_seconds r + seconds) (last_started r)
               (is_running r) (sub_activity_seconds r).

Definition get_current_total_seconds (now : Z) (r : TimeRecord) : Z :=
  match is_running r, last_started r with
  | true, Some start_time => total_seconds r + elapsed_seconds start_time now
  | _, _ => total_seconds r
  end.

Definition start_timing (now : Z) (r : TimeRecord) : TimeRecord :=
  mkTimeRecord (date r) (total_seconds r) (Some now) true
               (sub_activity_seconds r).

Definition stop_timing (now : Z) (r : TimeRecord) : TimeRecord :=
  match is_running r, last_started r with
  | true, Some start_time =>
      let r1 := add_time (elapsed_seconds start_time now) r in
      mkTimeRecord (date r1) (total_seconds r1) None false
                   (sub_activity_seconds r1)
  | _, _ => r
  end.

(** A sequence of calls on one record, each with the clock reading it
    sees. *)
Inductive timing_call :=
  | StartTiming (now : Z)
  | StopTiming (now : Z).

Definition run_call (r : TimeRecord) (c : timing_call) : TimeRecord :=
  match c with
  | StartTiming now => start_timing now r
  | StopTiming now => stop_timing now r
  end.

Definition run_calls (r : TimeRecord) (cs : list timing_call) : TimeRecord :=
  fold_left run_call cs r.

(** The runs a sequence of calls completes, read off the calls alone: a
    run is open from the latest [start_timing] and is completed by the
    next [stop_timing]; a [stop_timing] with no open run completes
    nothing.  [open] is the start of the run that is open before the
    first call. *)
Fixpoint completed_runs (open : option Z) (cs : list timing_call)
  : list (Z * Z) :=
  match cs with
  | [] => []
  | StartTiming now :: cs' => completed_runs (Some now) cs'
  | StopTiming now :: cs' =>
      match open with
      | Some start_time => (start_time, now) :: completed_runs None cs'
      | None => completed_runs None cs'
      end
  end.

(** The run that is open in a record: it is running and knows since
    when. *)
Definition open_run (r : TimeRecord) : option Z :=
  if is_running r then last_started r else None.

Definition run_seconds (run : Z * Z) : Z := elapsed_seconds run.1 run.2.

Definition sum_Z (l : list Z) : Z := foldr Z.add 0 l.

Local Close Scope Z_scope.

(** ** SubActivity and Project *)

Record SubActivity := mkSubActivity {
  sub_name : string;
  sub_alias : string;
  sub_time_records : gmap string TimeRecord
}.

Record Project := mkProject {
  name : string;
  dz_number : string;
  alias : string;
  sub_activities : list SubActivity;
  time_records : gmap string TimeRecord
}.

(** [get_today_record]: the dict after the call and the record it
    returns, created when today's key is absent.  The record is returned
    by reference: what the caller does to it is written back under
    today's key ([with_today_record]). *)
Definition get_today_record (today : string) (recs : gmap string TimeRecord)
  : gmap string TimeRecord * TimeRecord :=
  match recs !! today with
  | Some r => (recs, r)
  | None => let r := new_record today in (<[today := r]> recs, r)
  end.

Definition with_today_record (today : string) (f : TimeRecord → TimeRecord)
    (recs : gmap string TimeRecord) : gmap string TimeRecord :=
  let '(recs', r) := get_today_record today recs in
  <[today := f r]> recs'.

(** [is_running_today] of a project or of a sub-activity: the state after
    [get_today_record] and the flag. *)
Definition is_running_today (today : string) (recs : gmap string TimeRecord)
  : gmap string TimeRecord * bool :=
  let '(recs', r) := get_today_record today recs in (recs', is_running r).

Definition set_sub_time_records (recs : gmap string TimeRecord)
    (sub : SubActivity) : SubActivity :=
  mkSubActivity (sub_name sub) (sub_alias sub) recs.

Definition set_time_records (recs : gmap string TimeRecord) (p : Project)
  : Project :=
  mkProject (name p) (dz_number p) (alias p) (sub_activities p) recs.

Definition set_sub_activities (subs : list SubActivity) (p : Project)
  : Project :=
  mkProject (name p) (dz_number p) (alias p) subs (time_records p).

(** [Project.add_sub_activity]: the project after the call and the
    sub-activity it returns. *)
Definition add_sub_activity (nm al : string) (p : Project)
  : Project * SubActivity :=
  let sub_activity := mkSubActivity nm al ∅ in
  (set_sub_activities (sub_activities p ++ [sub_activity]) p, sub_activity).

(** The index of the first sub-activity with the alias: what the loops of
    [get_sub_activity] and [remove_sub_activity] stop at. *)
Definition find_sub_activity (al : string) (subs : list SubActivity)
  : option (nat * SubActivity) :=
  list_find (λ sub, sub_alias sub = al) subs.

Definition get_sub_activity (al : string) (p : Project) : option SubActivity :=
  snd <$> find_sub_activity al (sub_activities p).


(** ** ProjectDataManager *)

(** What the manager reads from its configuration object. *)
Record Config := mkConfig {
  get_auto_save_interval : Z;
  is_backup_enabled : bool;
  get_max_backups : Z
}.

Record ProjectDataManager := mkManager {
  projects : list Project;
  current_project_alias : option string;
  current_sub_activity_alias : option string;
  auto_save_interval : Z;
  last_save_time : Z;
  config : Config
}.

Definition set_projects (ps : list Project) (m : ProjectDataManager)
  : ProjectDataManager :=
  mkManager ps (current_project_alias m) (current_sub_activity_alias m)
            (auto_save_interval m) (last_save_time m) (config m).

Definition set_selection (cp cs : option string) (m : ProjectDataManager)
  : ProjectDataManager :=
  mkManager (projects m) cp cs (auto_save_interval m) (last_save_time m)
            (config m).

(** [__init__]: no projects, no selection, and a last save time early
    enough for the first save to pass the interval test. *)
Definition init_manager (now : Z) (cfg : Config) : ProjectDataManager :=
  mkManager [] None None (get_auto_save_interval cfg)
            (now - (get_auto_save_interval cfg + 1) * 1000000)%Z cfg.

(** Truth value of an [Optional[str]]: [None] and the empty string are
    false. *)
Definition truthy (o : option string) : bool :=
  match o with
  | Some s => negb (String.eqb s "")
  | None => false
  end.

Definition find_project (al : string) (ps : list Project)
  : option (nat * Project) :=
  list_find (λ proj, alias proj = al) ps.

Definition get_project (al : string) (m : ProjectDataManager)
  : option Project :=
  snd <$> find_project al (projects m).

(** The position of the current project in [projects]: the object
    [get_current_project] returns a reference to. *)
Definition current_project_index (m : ProjectDataManager) : option nat :=
  if truthy (current_project_alias m)
  then fst <$> (current_project_alias m
                ≫= λ al, find_project al (projects m))
  else None.

Definition get_current_project (m : ProjectDataManager) : option Project :=
  if truthy (current_project_alias m)
  then current_project_alias m ≫= λ al, get_project al m
  else None.

Definition get_current_sub_activity (m : ProjectDataManager)
  : option SubActivity :=
  match get_current_project m with
  | Some project =>
      if truthy (current_sub_activity_alias m)
      then current_sub_activity_alias m ≫= λ al, get_sub_activity al project
      else None
  | None => None
  end.

Definition set_current_project (al : string) (m : ProjectDataManager)
  : ProjectDataManager * bool :=
  match get_project al m with
  | Some _ => (set_selection (Some al) None m, true)
  | None => (m, false)
  end.

(** The aliases [set_current_sub_activity] creates on demand. *)
Definition standard_sub_activities : list string :=
  ["sub1"; "sub2"; "sub3"; "dev"; "test"; "debug"].

Definition set_current_sub_activity (al : option string)
    (m : ProjectDataManager) : ProjectDataManager * bool :=
  match al with
  | None => (set_selection (current_project_alias m) None m, true)
  | Some a =>
      match current_project_index m with
      | Some i =>
          match projects m !! i with
          | Some project =>
              match get_sub_activity a project with
              | Some _ =>
                  (set_selection (current_project_alias m) (Some a) m, true)
              | None =>
                  if bool_decide (a ∈ standard_sub_activities)
                  then
                    let project' :=
                      (add_sub_activity ("Sub Activity " +:+ a) a project).1 in
                    (set_selection (current_project_alias m) (Some a)
                       (set_projects (<[i := project']> (projects m)) m), true)
                  else (m, false)
              end
          | None => (m, false)
          end
      | None => (m, false)
      end
  end.

(** [str.strip()] removes white space; [not alias.strip()] holds when the
    alias has nothing else (ASCII text). *)
Definition is_space (c : Ascii.ascii) : bool :=
  let n := Ascii.nat_of_ascii c in
  ((9 <=? n) && (n <=? 13)) || ((28 <=? n) && (n <=? 32)).

Fixpoint is_blank (s : string) : bool :=
  match s with
  | EmptyString => true
  | String c s' => is_space c && is_blank s'
  end.

Definition add_project (nm dz al : string) (add_default_sub : bool)
    (m : ProjectDataManager) : ProjectDataManager * option Project :=
  let al := if is_blank al then nm else al in
  match get_project al m with
  | Some _ => (m, None)
  | None =>
      let project := mkProject nm dz al [] ∅ in
      let project :=
        if add_default_sub
        then (add_sub_activity "Sub Activity 1" "sub1" project).1
        else project in
      (set_projects (projects m ++ [project]) m, Some project)
  end.

Definition remove_project (al : string) (m : ProjectDataManager)
  : ProjectDataManager * bool :=
  match find_project al (projects m) with
  | Some (i, _) =>
      let m' := set_projects (delete i (projects m)) m in
      if bool_decide (current_project_alias m = Some al)
      then (set_selection None None m', true)
      else (m', true)
  | None => (m, false)
  end.

(** One step of the loops of [stop_all_timers]: fetch today's record
    (creating it) and stop it when it is flagged as running. *)
Definition stop_today (today : string) (now : Z)
    (recs : gmap string TimeRecord) : gmap string TimeRecord :=
  let '(recs', today_record) := get_today_record today recs in
  if is_running today_record
  then <[today := stop_timing now today_record]> recs'
  else recs'.

Definition stop_sub_activity (today : string) (now : Z) (sub : SubActivity)
  : SubActivity :=
  set_sub_time_records (stop_today today now (sub_time_records sub)) sub.

Definition stop_project (today : string) (now : Z) (p : Project) : Project :=
  mkProject (name p) (dz_number p) (alias p)
            (stop_sub_activity today now <$> sub_activities p)
            (stop_today today now (time_records p)).

Definition stop_all_timers (today : string) (now : Z)
    (m : ProjectDataManager) : ProjectDataManager :=
  set_projects (stop_project today now <$> projects m) m.

(** [get_today_record().start_timing()] on a project, and on the first
    sub-activity of the project with the selected alias. *)
Definition start_project_today (today : string) (now : Z) (p : Project)
  : Project :=
  set_time_records
    (with_today_record today (start_timing now) (time_records p)) p.

Definition start_sub_today (today : string) (now : Z) (sub : SubActivity)
  : SubActivity :=
  set_sub_time_records
    (with_today_record today (start_timing now) (sub_time_records sub)) sub.

Definition start_selected_sub (today : string) (now : Z)
    (sel : option string) (p : Project) : Project :=
  if truthy sel
  then match sel ≫= λ al, find_sub_activity al (sub_activities p) with
       | Some (j, _) =>
           set_sub_activities
             (alter (start_sub_today today now) j (sub_activities p)) p
       | None => p
       end
  else p.

Definition start_current_timer (today : string) (now : Z)
    (m : ProjectDataManager) : ProjectDataManager * bool :=
  let m1 := stop_all_timers today now m in
  match current_project_index m1 with
  | None => (m1, false)
  | Some i =>
      (set_projects
         (alter (λ project,
                   start_selected_sub today now (current_sub_activity_alias m1)
                     (start_project_today today now project))
                i (projects m1)) m1,
       true)
  end.

(** ** Observations on the timer state *)

Definition running_at (d : string) (recs : gmap string TimeRecord) : bool :=
  match recs !! d with
  | Some r => is_running r
  | None => false
  end.

(** All records of a dict that are flagged as running, whatever their
    date. *)
Definition running_records (recs : gmap string TimeRecord) : list TimeRecord :=
  filter (λ r, is_running r = true) (snd <$> map_to_list recs).

Definition project_records (p : Project) : list (gmap string TimeRecord) :=
  time_records p :: (sub_time_records <$> sub_activities p).

(** The dicts of every project and every sub-activity of the graph. *)
Definition all_record_maps (m : ProjectDataManager)
  : list (gmap string TimeRecord) :=
  projects m ≫= project_records.

(** Number of records of the whole graph with [is_running = true]. *)
Definition running_count (m : ProjectDataManager) : nat :=
  length (all_record_maps m ≫= running_records).

(** Number of projects, and of sub-activities, whose record of the day
    [d] is running. *)
Definition projects_running_at (d : string) (m : ProjectDataManager) : nat :=
  length (filter (λ p, running_at d (time_records p) = true) (projects m)).

Definition subs_running_at (d : string) (m : ProjectDataManager) : nat :=
  length (filter (λ sub, running_at d (sub_time_records sub) = true)
                 (projects m ≫= sub_activities)).

(** A record of the day [d] that is flagged as running also knows since
    when: the invariant of TimeRecord, for the records of [d]. *)
Definition consistent_at (d : string) (recs : gmap string TimeRecord) : bool :=
  match recs !! d with
  | Some r => implb (is_running r) (bool_decide (is_Some (last_started r)))
  | None => true
  end.

Definition manager_consistent_at (d : string) (m : ProjectDataManager) : Prop :=
  Forall (λ recs, consistent_at d recs = true) (all_record_maps m).

(** The records of the day [d] of the graph, project by project: the
    project's own and those of its sub-activities. *)
Definition records_at (d : string) (m : ProjectDataManager)
  : list (option TimeRecord * list (option TimeRecord)) :=
  (λ p, (time_records p !! d,
         (λ sub, sub_time_records sub !! d) <$> sub_activities p))
    <$> projects m.

(** What [stop_all_timers] leaves under today's key, from what was
    there. *)
Definition stopped_record (today : string) (now : Z) (o : option TimeRecord)
  : option TimeRecord :=
  let r := default (new_record today) o in
  Some (if is_running r then stop_timing now r else r).

Definition stopped_records (today : string) (now : Z)
    (rs : option TimeRecord * list (option TimeRecord))
  : option TimeRecord * list (option TimeRecord) :=
  (stopped_record today now rs.1, stopped_record today now <$> rs.2).

(** ** The persisted document *)

#[local] Unset Elimination Schemes.

(** What [json.load] returns and [json.dump] takes.  [JTime t] is the
    JSON string that holds the [isoformat()] text of the timestamp [t];
    [JStr] is any other string.  Numbers are integers (the manager
    writes no others).  A [dict] keeps its keys in order. *)
Inductive json :=
  | JNull
  | JBool (b : bool)
  | JInt (n : Z)
  | JStr (s : string)
  | JTime (t : Z)
  | JList (l : list json)
  | JDict (kvs : list (string * json)).

#[local] Set Elimination Schemes.

Inductive file_content :=
  | Absent                  (* no such file *)
  | Unparsable              (* text [json.load] rejects with JSONDecodeError *)
  | Parsed (data : json).

Inductive exception := TypeError | AttributeError | KeyError | ValueError.

(** The result of running loader code on a document.  [IllTyped]: the
    document holds, where the loader has looked so far, a value of a type
    the annotations of the dataclasses exclude; Python keeps such a value
    unchecked and the model does not follow it further. *)
Inductive outcome (A : Type) :=
  | Value (a : A)
  | IllTyped
  | Raise (e : exception).
Arguments Value {A} a.
Arguments IllTyped {A}.
Arguments Raise {A} e.

#[global] Instance outcome_ret : MRet outcome := λ A, Value.

#[global] Instance outcome_bind : MBind outcome := λ A B f o,
  match o with
  | Value a => f a
  | IllTyped => IllTyped
  | Raise e => Raise e
  end.

Fixpoint dict_get (k : string) (kvs : list (string * json)) : option json :=
  match kvs with
  | [] => None
  | (k', v) :: kvs' => if String.eqb k' k then Some v else dict_get k kvs'
  end.

Definition is_dict (v : json) : bool :=
  match v with JDict _ => true | _ => false end.

(** Truth value of a document value. *)
Definition json_truthy (v : json) : bool :=
  match v with
  | JNull => false
  | JBool b => b
  | JInt n => negb (n =? 0)%Z
  | JStr s => negb (String.eqb s "")
  | JTime _ => true
  | JList l => match l with [] => false | _ => true end
  | JDict kvs => match kvs with [] => false | _ => true end
  end.

(** Calling a dataclass with the keywords of a dict: a keyword that is
    no field, and a field without default that is not given, are
    TypeErrors. *)
Definition check_keywords (fields required : list string)
    (kvs : list (string * json)) : outcome unit :=
  if forallb (λ kv, bool_decide (kv.1 ∈ fields)) kvs
     && forallb (λ k, bool_decide (k ∈ kvs.*1)) required
  then Value ()
  else Raise TypeError.

Definition as_str (v : json) : outcome string :=
  match v with JStr s => Value s | _ => IllTyped end.

Definition as_int (v : json) : outcome Z :=
  match v with JInt n => Value n | _ => IllTyped end.

Definition as_bool (v : json) : outcome bool :=
  match v with JBool b => Value b | _ => IllTyped end.

Definition as_optional_time (v : json) : outcome (option Z) :=
  match v with
  | JNull => Value None
  | JTime t => Value (Some t)
  | _ => IllTyped
  end.

Definition as_optional_str (v : json) : outcome (option string) :=
  match v with
  | JNull => Value None
  | JStr s => Value (Some s)
  | _ => IllTyped
  end.

Definition as_int_dict (v : json) : outcome (gmap string Z) :=
  match v with
  | JDict kvs =>
      l ← mapM (λ kv, n ← as_int kv.2; Value (kv.1, n)) kvs;
      Value (list_to_map (reverse l))
  | _ => IllTyped
  end.

Definition TimeRecord_fields : list string :=
  ["date"; "total_seconds"; "last_started"; "is_running";
   "sub_activity_seconds"].

(** [TimeRecord] called with the keywords of [record_data], after
    [record_data['date'] = date_str]. *)
Definition TimeRecord_init (date_str : string) (kvs : list (string * json))
  : outcome TimeRecord :=
  check_keywords TimeRecord_fields [] kvs;;
  total ← from_option as_int (Value 0%Z) (dict_get "total_seconds" kvs);
  started ← from_option as_optional_time (Value None)
              (dict_get "last_started" kvs);
  running ← from_option as_bool (Value false) (dict_get "is_running" kvs);
  sas ← from_option as_int_dict (Value ∅)
          (dict_get "sub_activity_seconds" kvs);
  Value (mkTimeRecord date_str total started running sas).

(** The first part of both [__post_init__]: the value given for
    [time_records], turned into records when it is a non-empty dict whose
    first value is a dict. *)
Definition convert_time_records (v : json)
  : outcome (gmap string TimeRecord) :=
  match v with
  | JDict [] => Value ∅
  | JDict (((_, first) :: _) as kvs) =>
      if is_dict first
      then
        l ← mapM
              (λ kv, match kv.2 with
                     | JDict record_data =>
                         r ← TimeRecord_init kv.1 record_data;
                         Value (kv.1, r)
                     | _ => IllTyped
                     end) kvs;
        Value (list_to_map (reverse l))
      else IllTyped
  | _ => if json_truthy v then Raise AttributeError else IllTyped
  end.

(** [SubActivity] called with the keywords of [sub_data]. *)
Definition SubActivity_init (sub_data : json) : outcome SubActivity :=
  match sub_data with
  | JDict kvs =>
      let fields := ["name"; "alias"; "time_records"] in
      check_keywords fields fields kvs;;
      recs ← from_option convert_time_records IllTyped
               (dict_get "time_records" kvs);
      nm ← from_option as_str IllTyped (dict_get "name" kvs);
      al ← from_option as_str IllTyped (dict_get "alias" kvs);
      Value (mkSubActivity nm al recs)
  | _ => Raise TypeError
  end.

(** The second part of [Project.__post_init__], on the value given for
    [sub_activities]: [self.sub_activities[0]] is looked at when the
    value is true. *)
Definition convert_sub_activities (v : json) : outcome (list SubActivity) :=
  match v with
  | JList [] => Value []
  | JList ((first :: _) as l) =>
      if is_dict first then mapM SubActivity_init l else IllTyped
  | JDict (_ :: _) => Raise KeyError
  | JBool true => Raise TypeError
  | JInt n => if (n =? 0)%Z then IllTyped else Raise TypeError
  | _ => IllTyped
  end.

(** [Project] called with the keywords of [proj_data]. *)
Definition Project_init (proj_data : json) : outcome Project :=
  match proj_data with
  | JDict kvs =>
      let fields :=
        ["name"; "dz_number"; "alias"; "sub_activities"; "time_records"] in
      check_keywords fields fields kvs;;
      recs ← from_option convert_time_records IllTyped
               (dict_get "time_records" kvs);
      subs ← from_option convert_sub_activities IllTyped
               (dict_get "sub_activities" kvs);
      nm ← from_option as_str IllTyped (dict_get "name" kvs);
      dz ← from_option as_str IllTyped (dict_get "dz_number" kvs);
      al ← from_option as_str IllTyped (dict_get "alias" kvs);
      Value (mkProject nm dz al subs recs)
  | _ => Raise TypeError
  end.

(** The list comprehension over [data['projects']]: iterating
    over a dict gives its keys and over a string its characters, none of
    them a mapping. *)
Definition load_project_list (v : json) : outcome (list Project) :=
  match v with
  | JList l => mapM Project_init l
  | JDict [] => Value []
  | JStr s => if String.eqb s "" then Value [] else Raise TypeError
  | _ => Raise TypeError
  end.

(** The exceptions the [except] clause of [load_projects] names
    (FileNotFoundError and JSONDecodeError are the [Absent] and
    [Unparsable] files). *)
Definition caught_by_load (e : exception) : bool :=
  match e with
  | KeyError | ValueError => true
  | TypeError | AttributeError => false
  end.

(** ['projects' in data] followed by [data['projects']] or [data.get],
    on a document that is not a dict. *)
Definition load_non_dict (data : json) : exception :=
  match data with
  | JList l =>
      if existsb (λ v, match v with
                       | JStr s => String.eqb s "projects"
                       | _ => false
                       end) l
      then TypeError else AttributeError
  | JStr s =>
      match String.index 0 "projects" s with
      | Some _ => TypeError
      | None => AttributeError
      end
  | JTime _ => AttributeError
  | _ => TypeError
  end.

(** [load_projects] on the content of the data file: the manager after
    the call, and what the call returns or raises. *)
Definition load_projects (file : file_content) (m : ProjectDataManager)
  : ProjectDataManager * outcome bool :=
  match file with
  | Absent => (m, Value false)
  | Unparsable => (m, Value false)
  | Parsed (JDict data) =>
      let loaded :=
        ps ← from_option load_project_list (Value (projects m))
               (dict_get "projects" data);
        cp ← from_option as_optional_str (Value None)
               (dict_get "current_project_alias" data);
        cs ← from_option as_optional_str (Value None)
               (dict_get "current_sub_activity_alias" data);
        Value (set_selection cp cs (set_projects ps m)) in
      match loaded with
      | Value m' => (m', Value true)
      | IllTyped => (m, IllTyped)
      | Raise e => (m, if caught_by_load e then Value false else Raise e)
      end
  | Parsed data => (m, Raise (load_non_dict data))
  end.

(** ** Saving *)

(** [asdict(record)] *)
Definition record_to_dict (r : TimeRecord) : json :=
  JDict [("date", JStr (date r));
         ("total_seconds", JInt (total_seconds r));
         ("last_started", from_option JTime JNull (last_started r));
         ("is_running", JBool (is_running r));
         ("sub_activity_seconds",
          JDict (prod_map id JInt <$> map_to_list (sub_activity_seconds r)))].

Definition records_to_dict (recs : gmap string TimeRecord) : json :=
  JDict (prod_map id record_to_dict <$> map_to_list recs).

Definition _project_to_dict (project : Project) : json :=
  JDict [("name", JStr (name project));
         ("dz_number", JStr (dz_number project));
         ("alias", JStr (alias project));
         ("sub_activities",
          JList ((λ sub,
                    JDict [("name", JStr (sub_name sub));
                           ("alias", JStr (sub_alias sub));
                           ("time_records",
                            records_to_dict (sub_time_records sub))])
                   <$> sub_activities project));
         ("time_records", records_to_dict (time_records project))].

(** The document [save_projects] dumps. *)
Definition saved_document (now : Z) (environment : string)
    (m : ProjectDataManager) : json :=
  JDict [("projects", JList (_project_to_dict <$> projects m));
         ("current_project_alias",
          from_option JStr JNull (current_project_alias m));
         ("current_sub_activity_alias",
          from_option JStr JNull (current_sub_activity_alias m));
         ("last_saved", JTime now);
         ("environment", JStr environment)].

(** The files the manager works on: the data file, the names of the files
    of the backup directory, and how many times the data file has been
    written in full (kept for the statements about writes). *)
Record FileSystem := mkFileSystem {
  data_file : file_content;
  backup_dir : gset string;
  writes : nat
}.

Definition data_file_exists (fs : FileSystem) : bool :=
  match data_file fs with Absent => false | _ => true end.

(** How the write of the data file goes: done; refused before the file
    is touched (OSError from [mkdir] or [open]); or broken off after the
    file was opened and truncated (OSError from [json.dump]). *)
Inductive write_result := Written | WriteRefused | WriteBrokenOff.

(** One call of [save_projects]: its argument, the clock reading
    [datetime.now()], the text [strftime("%Y%m%d_%H%M%S")] prints for
    the clock reading of [_create_backup], the environment name of the
    configuration, and how the file operations go: whether the copy of
    the backup succeeds, the position in the list of files to remove of
    the first [unlink] that fails, and the write. *)
Record save_call := mkSaveCall {
  force : bool;
  now : Z;
  stamp : string;
  environment : string;
  copy_succeeds : bool;
  unlink_failure : option nat;
  write : write_result
}.

Definition backup_name (stem stamp : string) : string :=
  stem +:+ "_backup_" +:+ stamp +:+ ".json".

Fixpoint strip_prefix (pre s : string) : option string :=
  match pre, s with
  | EmptyString, _ => Some s
  | String a pre', String b s' =>
      if Ascii.eqb a b then strip_prefix pre' s' else None
  | String _ _, EmptyString => None
  end.

Fixpoint ends_with (suffix s : string) : bool :=
  String.eqb s suffix
  || match s with
     | EmptyString => false
     | String _ s' => ends_with suffix s'
     end.

(** A name the pattern [f"{stem}_backup_*.json"] matches (for a stem
    without pattern characters). *)
Definition matches_backup_pattern (stem file_name : string) : bool :=
  match strip_prefix (stem +:+ "_backup_") file_name with
  | Some rest => ends_with ".json" rest
  | None => false
  end.

(** [sorted(backup_dir.glob(pattern))] *)
Definition backup_files (stem : string) (dir : gset string) : list string :=
  merge_sort String.le
    (filter (λ f, matches_backup_pattern stem f = true) (elements dir)).

(** [l[:stop]] *)
Definition slice_until {A} (stop : Z) (l : list A) : list A :=
  if (stop <? 0)%Z
  then take (Z.to_nat (Z.of_nat (length l) + stop)) l
  else take (Z.to_nat stop) l.

(** [_cleanup_old_backups]: the files are removed in order, up to the
    first [unlink] that fails. *)
Definition _cleanup_old_backups (stem : string) (max_backups : Z)
    (unlink_failure : option nat) (dir : gset string) : gset string :=
  let files := backup_files stem dir in
  if (max_backups <? Z.of_nat (length files))%Z
  then
    let old_backups := slice_until (- max_backups) files in
    let removed :=
      match unlink_failure with
      | Some n => take n old_backups
      | None => old_backups
      end in
    dir ∖ list_to_set removed
  else dir.

Definition _create_backup (stem : string) (c : save_call) (cfg : Config)
    (dir : gset string) : gset string :=
  if copy_succeeds c
  then _cleanup_old_backups stem (get_max_backups cfg) (unlink_failure c)
         ({[backup_name stem (stamp c)]} ∪ dir)
  else dir.

(** [save_projects] for the data file with the given stem: manager and
    files after the call, and the value returned. *)
Definition save_projects (stem : string) (c : save_call)
    (m : ProjectDataManager) (fs : FileSystem)
  : ProjectDataManager * FileSystem * bool :=
  if negb (force c)
     && (now c - last_save_time m <? auto_save_interval m * 1000000)%Z
  then (m, fs, false)
  else
    let dir :=
      if is_backup_enabled (config m) && data_file_exists fs
      then _create_backup stem c (config m) (backup_dir fs)
      else backup_dir fs in
    match write c with
    | Written =>
        (mkManager (projects m) (current_project_alias m)
                   (current_sub_activity_alias m) (auto_save_interval m)
                   (now c) (config m),
         mkFileSystem (Parsed (saved_document (now c) (environment c) m))
                      dir (S (writes fs)),
         true)
    | WriteRefused => (m, mkFileSystem (data_file fs) dir (writes fs), false)
    | WriteBrokenOff => (m, mkFileSystem Unparsable dir (writes fs), false)
    end.

(** A run of calls of [save_projects]. *)
Fixpoint save_all (stem : string) (cs : list save_call)
    (m : ProjectDataManager) (fs : FileSystem)
  : ProjectDataManager * FileSystem :=
  match cs with
  | [] => (m, fs)
  | c :: cs' =>
      let '(m', fs', _) := save_projects stem c m fs in
      save_all stem cs' m' fs'
  end.


(** The names of the backups the calls ask for, in the order of the
    calls. *)
Definition backup_names (stem : string) (cs : list save_call) : list string :=
  (λ c, backup_name stem (stamp c)) <$> cs.

(** A file name that comes strictly before another in the order of
    [sorted]. *)
Definition sorts_before (x y : string) : Prop := String.le x y ∧ x ≠ y.

#[global] Instance sorts_before_dec : RelDecision sorts_before :=
  λ x y, decide (String.le x y ∧ x ≠ y).

(** Time stamps as [strftime("%Y%m%d_%H%M%S")] prints them, each later
    than the ones before: fifteen characters, increasing as strings. *)
Definition stamp_before (s1 s2 : string) : Prop :=
  String.length s1 = 15 ∧ String.length s2 = 15 ∧ String.ltb s1 s2 = true.

(** ** Further operations of the manager *)

(** The invariant the dataclass documents for a record: it is flagged as
    running exactly when it knows since when. *)
Definition record_consistent (r : TimeRecord) : Prop :=
  is_running r = true ↔ is_Some (last_started r).

Definition get_project_aliases (m : ProjectDataManager) : list string :=
  alias <$> projects m.

(** [update_running_timers]: both loops only fetch today's record, which
    creates it where it is absent; the bodies of the tests are [pass]. *)
Definition touch_today (today : string) (recs : gmap string TimeRecord)
  : gmap string TimeRecord :=
  (get_today_record today recs).1.

Definition update_running_timers (today : string) (m : ProjectDataManager)
  : ProjectDataManager :=
  set_projects
    ((λ project,
        mkProject (name project) (dz_number project) (alias project)
          ((λ sub, set_sub_time_records
                     (touch_today today (sub_time_records sub)) sub)
             <$> sub_activities project)
          (touch_today today (time_records project)))
       <$> projects m) m.

(** The selection names what exists: a selected sub-activity is one of
    the current project. *)
Definition selection_valid (m : ProjectDataManager) : Prop :=
  ∀ a, current_sub_activity_alias m = Some a →
       ∃ p, get_current_project m = Some p ∧ is_Some (get_sub_activity a p).

(** A project after an operation that keeps its alias and the aliases of
    its sub-activities, or adds some. *)
Definition project_extends (p p' : Project) : Prop :=
  alias p' = alias p
  ∧ sub_alias <$> sub_activities p ⊆ sub_alias <$> sub_activities p'.

(** Nothing is lost from a dict of records: every record is still there,
    under its key, and its banked total is not smaller. *)
Definition records_grow (recs recs' : gmap string TimeRecord) : Prop :=
  ∀ d r, recs !! d = Some r →
         ∃ r', recs' !! d = Some r'
               ∧ (total_seconds r ≤ total_seconds r')%Z.

Definition sub_activity_grows (sub sub' : SubActivity) : Prop :=
  sub_name sub' = sub_name sub ∧ sub_alias sub' = sub_alias sub
  ∧ records_grow (sub_time_records sub) (sub_time_records sub').

(** The same project, with the same sub-activities in the same order,
    having lost no record and no banked time. *)
Definition project_grows (p p' : Project) : Prop :=
  name p' = name p ∧ dz_number p' = dz_number p ∧ alias p' = alias p
  ∧ records_grow (time_records p) (time_records p')
  ∧ Forall2 sub_activity_grows (sub_activities p) (sub_activities p').

(** What fetching today's record leaves under today's key. *)
Definition fetched_record (today : string) (o : option TimeRecord)
  : option TimeRecord :=
  Some (default (new_record today) o).

Definition fetched_records (today : string)
    (rs : option TimeRecord * list (option TimeRecord))
  : option TimeRecord * list (option TimeRecord) :=
  (fetched_record today rs.1, fetched_record today <$> rs.2).

(** Every record sits under its own date: the [date] of a record is the
    key it is stored under. *)
Definition records_dated (recs : gmap string TimeRecord) : Prop :=
  ∀ d r, recs !! d = Some r → date r = d.

Definition project_dated (p : Project) : Prop :=
  records_dated (time_records p)
  ∧ Forall (λ sub, records_dated (sub_time_records sub)) (sub_activities p).

(** ** The widget's use of the timers *)

(** [TickTockWidget.toggle_sub_activity] on the manager of the widget:
    nothing happens without a current project or when the project has no
    sub-activity of the alias; otherwise the sub-activity's record of
    today is fetched to read its flag, all timers are stopped, and the
    timer is started with the sub-activity deselected when it was
    running, selected when it was not. *)
Definition toggle_sub_activity (today : string) (now1 now2 : Z)
    (sub_alias : string) (m : ProjectDataManager) : ProjectDataManager :=
  match current_project_index m with
  | Some i =>
      match projects m !! i with
      | Some project =>
          match find_sub_activity sub_alias (sub_activities project) with
          | Some (j, sub_activity) =>
              let '(recs, running) :=
                is_running_today today (sub_time_records sub_activity) in
              let m0 :=
                set_projects
                  (alter (λ p, set_sub_activities
                                 (alter (set_sub_time_records recs) j
                                        (sub_activities p)) p)
                         i (projects m)) m in
              let m1 := stop_all_timers today now1 m0 in
              let m2 :=
                (set_current_sub_activity
                   (if running then None else Some sub_alias) m1).1 in
              (start_current_timer today now2 m2).1
          | None => m
          end
      | None => m
      end
  | None => m
  end.

(** ** Environments *)

Inductive Environment := DEVELOPMENT | PRODUCTION | TEST | PROTOTYPE.

(** [Environment.value] *)
Definition Environment_value (e : Environment) : string :=
  match e with
  | DEVELOPMENT => "development"
  | PRODUCTION => "production"
  | TEST => "test"
  | PROTOTYPE => "prototype"
  end.

(** The data files of all environments: the content at each path, the
    one backup directory, and the number of full writes. *)
Record Storage := mkStorage {
  file_at : string → file_content;
  backups : gset string;
  written : nat
}.

(** The manager with what [switch_environment] changes beside its
    fields: the path in [self.data_file] and the environment of the
    configuration. *)
Record Session := mkSession {
  manager : ProjectDataManager;
  data_file_path : string;
  get_environment : Environment
}.

(** The files [save_projects] works on when the data file is at [path],
    and the storage after it has worked on them. *)
Definition files_of (path : string) (st : Storage) : FileSystem :=
  mkFileSystem (file_at st path) (backups st) (written st).

Definition store_files (path : string) (fs : FileSystem) (st : Storage)
  : Storage :=
  mkStorage (λ p, if decide (p = path) then data_file fs else file_at st p)
            (backup_dir fs) (writes fs).

Section environments.
(** [Config.get_data_file] for each environment (the switch does not
    change the configured paths) and [Path.stem]. *)
Variable get_data_file : Environment → string.
Variable path_stem : string → string.

(** [switch_environment]: the forced save takes its clock reading and
    the results of its file operations from [c]; the write of the
    configuration file is not part of the storage. *)
Definition switch_environment (env : Environment) (c : save_call)
    (s : Session) (st : Storage) : Session * Storage * outcome bool :=
  let saved :=
    save_projects (path_stem (data_file_path s))
      (mkSaveCall true (now c) (stamp c)
                  (Environment_value (get_environment s))
                  (copy_succeeds c) (unlink_failure c) (write c))
      (manager s) (files_of (data_file_path s) st) in
  let st1 := store_files (data_file_path s) saved.1.2 st in
  let path := get_data_file env in
  let loaded := load_projects (file_at st1 path) saved.1.1 in
  let switched m := mkSession m path env in
  match loaded.2 with
  | Value true => (switched loaded.1, st1, Value true)
  | Value false =>
      match file_at st1 path with
      | Absent =>
          (switched (set_selection None None (set_projects [] loaded.1)),
           st1, Value true)
      | _ => (switched loaded.1, st1, Value false)
      end
  | Raise AttributeError => (switched loaded.1, st1, Value false)
  | Raise e => (switched loaded.1, st1, Raise e)
  | IllTyped => (switched loaded.1, st1, IllTyped)
  end.
End environments.

(** ** The display of a total *)

(** [f"{n:02d}"]: the decimal digits of [n], after a minus sign when [n]
    is negative, filled with zeros to two characters; only a single
    digit without a sign is shorter than that. *)
Definition format_02d (n : Z) : string :=
  let digits := NilZero.string_of_int (Z.to_int n) in
  if decide (0 ≤ n < 10)%Z then "0" +:+ digits else digits.

(** [TimeRecord.get_formatted_time]; [//] and [%] round to the floor, as
    [Z.div] and [Z.modulo] do for a positive divisor. *)
Definition get_formatted_time (now : Z) (r : TimeRecord) : string :=
  let total := get_current_total_seconds now r in
  let hours := (total / 3600)%Z in
  let minutes := ((total mod 3600) / 60)%Z in
  let seconds := (total mod 60)%Z in
  format_02d hours +:+ ":" +:+ format_02d minutes +:+ ":"
  +:+ format_02d seconds.

(** Reading a number back from its digits. *)
Definition read_int (s : string) : option Z :=
  Z.of_int <$> NilZero.int_of_string s.

(** ** Scenarios

    Managers and files built with the operations above, for the concrete
    cases of the properties. *)

Module Scenario.
Definition cfg : Config := mkConfig 300 true 10.
Definition today : string := "2025-08-13".

(** Seconds on the clock of the scenarios. *)
Definition at_second (s : Z) : Z := (s * 1000000)%Z.

Definition fresh : ProjectDataManager := init_manager (at_second 1000) cfg.

(** Project [alpha], selected, with the sub-activity [dev] selected. *)
Definition alpha : ProjectDataManager :=
  (add_project "Alpha" "DZ-1" "alpha" false fresh).1.
Definition alpha_selected : ProjectDataManager :=
  (set_current_project "alpha" alpha).1.
Definition alpha_dev : ProjectDataManager :=
  (set_current_sub_activity (Some "dev") alpha_selected).1.


(** [alpha] started on the day before [today] and never stopped. *)
Definition alpha_from_yesterday : ProjectDataManager :=
  (start_current_timer "2025-08-12" (at_second 0) alpha_dev).1.

(** A record as a file can hold it: flagged as running, no start. *)
Definition running_without_start : TimeRecord :=
  mkTimeRecord "2025-08-12" 1800 None true ∅.

(** A document whose only project lacks [alias], [sub_activities] and
    [time_records]. *)
Definition project_without_fields : json :=
  JDict [("projects",
          JList [JDict [("name", JStr "Alpha"); ("dz_number", JStr "DZ-1")]])].

(** A document without the [projects] key. *)
Definition no_projects_key : json :=
  JDict [("current_project_alias", JStr "alpha");
         ("current_sub_activity_alias", JNull)].

(** A project that has the sub-activity [dev]. *)
Definition project_with_dev : Project :=
  (add_sub_activity "Development" "dev"
     (mkProject "Alpha" "DZ-1" "alpha" [] ∅)).1.

Definition stem : string := "tick_tock_projects".

(** A document as a file can hold it: project [beta] has a record of
    [today] that is flagged as running and has no start. *)
Definition beta_running_without_start : json :=
  JDict [("projects",
          JList [JDict [("name", JStr "Alpha"); ("dz_number", JStr "DZ-1");
                        ("alias", JStr "alpha");
                        ("sub_activities", JList []);
                        ("time_records", JDict [])];
                 JDict [("name", JStr "Beta"); ("dz_number", JStr "DZ-2");
                        ("alias", JStr "beta");
                        ("sub_activities", JList []);
                        ("time_records",
                         JDict [(today,
                                 JDict [("date", JStr today);
                                        ("total_seconds", JInt 1800);
                                        ("last_started", JNull);
                                        ("is_running", JBool true);
                                        ("sub_activity_seconds",
                                         JDict [])])])]]);
         ("current_project_alias", JStr "alpha");
         ("current_sub_activity_alias", JNull)].

Definition loaded_running_without_start : ProjectDataManager :=
  (load_projects (Parsed beta_running_without_start) fresh).1.

Definition no_files : FileSystem := mkFileSystem Absent ∅ 0.


Definition save_at (forced : bool) (s : Z) (text : string) : save_call :=
  mkSaveCall forced (at_second s) text "test" true None Written.


Definition keeps_none : ProjectDataManager :=
  init_manager (at_second 1000) (mkConfig 300 true 0).

(** Four saves a minute apart, and three within one second. *)
Definition four_saves : list save_call :=
  [save_at true 1000 "20250813_101640"; save_at true 1060 "20250813_101740";
   save_at true 1120 "20250813_101840"; save_at true 1180 "20250813_101940"].
End Scenario.

(** Further scenarios: a record that runs, two projects, and the data
    files of the environments as the default configuration names
    them. *)
Module Day.
(** The record of [today] once started at second 1000. *)
Definition running : TimeRecord :=
  start_timing (Scenario.at_second 1000) (new_record Scenario.today).

(** [alpha] and [beta]; [alpha] is selected and runs since second
    1000 of [today]. *)
Definition two_projects : ProjectDataManager :=
  (start_current_timer Scenario.today (Scenario.at_second 1000)
     (add_project "Beta" "DZ-2" "beta" false Scenario.alpha_selected).1).1.

Definition data_file_of (env : Environment) : string :=
  match env with
  | DEVELOPMENT => "user_data/tick_tock_projects_dev.json"
  | PRODUCTION => "user_data/tick_tock_projects.json"
  | TEST => "tests/fixtures/test_data.json"
  | PROTOTYPE => "user_data/tick_tock_projects_prototype.json"
  end.

Definition stem_of (path : string) : string :=
  if String.eqb path (data_file_of DEVELOPMENT) then "tick_tock_projects_dev"
  else if String.eqb path (data_file_of PRODUCTION) then "tick_tock_projects"
  else if String.eqb path (data_file_of TEST) then "test_data"
  else "tick_tock_projects_prototype".

(** The manager of the prototype environment, and a disk without any
    data file. *)
Definition session : Session :=
  mkSession Scenario.alpha_from_yesterday (data_file_of PROTOTYPE) PROTOTYPE.
Definition empty_disk : Storage := mkStorage (λ _, Absent) ∅ 0.
End Day.

(** * Properties *)

(** ** TimeRecord *)

Section time_record.
Implicit Types (r : TimeRecord) (cs : list timing_call).

Lemma elapsed_seconds_pos start_time now :
  (1 ≤ elapsed_seconds start_time now)%Z.
Proof. unfold elapsed_seconds. lia. Qed.

Lemma open_run_start_timing now r : open_run (start_timing now r) = Some now.
Proof. reflexivity. Qed.

Lemma stop_timing_open now r start_time :
  open_run r = Some start_time →
  stop_timing now r
  = mkTimeRecord (date r) (total_seconds r + elapsed_seconds start_time now)
                 None false (sub_activity_seconds r).
Proof.
  unfold open_run, stop_timing.
  destruct (is_running r); [|done]. by intros ->.
Qed.

Lemma stop_timing_closed now r : open_run r = None → stop_timing now r = r.
Proof.
  unfold open_run, stop_timing.
  destruct (is_running r); [|done]. by intros ->.
Qed.

(** The accumulator of the record against the sum over the runs read
    off the calls. *)
Lemma run_calls_total cs : ∀ r,
  total_seconds (run_calls r cs)
  = (total_seconds r
     + sum_Z (run_seconds <$> completed_runs (open_run r) cs))%Z.
Proof.
  induction cs as [|[now|now] cs IH]; intros r; simpl.
  - lia.
  - rewrite IH. reflexivity.
  - rewrite IH. destruct (open_run r) as [start_time|] eqn:Hopen.
    + rewrite (stop_timing_open _ _ _ Hopen).
      cbn [open_run is_running total_seconds fmap list_fmap].
      unfold sum_Z, run_seconds. simpl. lia.
    + rewrite (stop_timing_closed _ _ Hopen), Hopen. reflexivity.
Qed.
End time_record.


(** [start_timing] on a record that is running starts the run anew:
    what had elapsed since the earlier start is not banked. *)
Lemma start_timing_restarts :
  total_seconds
    (run_calls (new_record "2025-08-13")
       [StartTiming 0; StartTiming 10000000; StopTiming 20000000])
  = 10%Z.
Proof. reflexivity. Qed.

(** C9. A record with [is_running = true] and no [last_started] is left
    exactly as it is by [stop_timing]: nothing is banked and it stays
    flagged as running. *)
Theorem stop_timing_running_without_start now r :
  is_running r = true →
  last_started r = None →
  stop_timing now r = r
  ∧ is_running (stop_timing now r) = true
  ∧ total_seconds (stop_timing now r) = total_seconds r
  ∧ last_started (stop_timing now r) = None.
Proof.
  intros Hrun Hstart.
  assert (stop_timing now r = r) as ->.
  { unfold stop_timing. by rewrite Hrun, Hstart. }
  done.
Qed.

(** ** Today's record of a dict *)

Section today_record.
Context (today : string) (now : Z).
Implicit Types (recs : gmap string TimeRecord) (d : string).

Lemma stop_today_lookup recs :
  stop_today today now recs !! today
  = stopped_record today now (recs !! today).
Proof.
  unfold stop_today, get_today_record, stopped_record.
  destruct (recs !! today) as [r|] eqn:Hr; simpl.
  - destruct (is_running r); [by rewrite lookup_insert_eq | done].
  - by rewrite lookup_insert_eq.
Qed.

Lemma stop_today_lookup_ne recs d :
  d ≠ today → stop_today today now recs !! d = recs !! d.
Proof.
  intros Hd. unfold stop_today, get_today_record.
  destruct (recs !! today) as [r|]; simpl.
  - destruct (is_running r); [by rewrite lookup_insert_ne | done].
  - by rewrite lookup_insert_ne.
Qed.

Lemma stop_today_not_running recs :
  consistent_at today recs = true →
  running_at today (stop_today today now recs) = false.
Proof.
  intros Hc. unfold running_at. rewrite stop_today_lookup.
  unfold stopped_record, consistent_at in *.
  destruct (recs !! today) as [r|]; simpl; [|done].
  destruct (is_running r) eqn:Hrun; [|done].
  simpl in Hc. apply bool_decide_eq_true in Hc as [start_time Hs].
  unfold stop_timing. by rewrite Hrun, Hs.
Qed.

Lemma with_today_record_lookup f recs :
  with_today_record today f recs !! today
  = Some (f (default (new_record today) (recs !! today))).
Proof.
  unfold with_today_record, get_today_record.
  destruct (recs !! today) as [r|]; simpl; by rewrite lookup_insert_eq.
Qed.

Lemma with_today_record_lookup_ne f recs d :
  d ≠ today → with_today_record today f recs !! d = recs !! d.
Proof.
  intros Hd. unfold with_today_record, get_today_record.
  destruct (recs !! today) as [r|]; simpl;
    by rewrite ?lookup_insert_ne by done.
Qed.
End today_record.

(** ** [stop_all_timers] *)

Section stop_all_timers.
Context (today : string) (now : Z).
Implicit Types (m : ProjectDataManager) (p : Project) (sub : SubActivity).

Lemma records_at_stop_all_timers_ne m d :
  d ≠ today → records_at d (stop_all_timers today now m) = records_at d m.
Proof.
  intros Hd. unfold records_at, stop_all_timers. simpl.
  rewrite <-list_fmap_compose. apply list_fmap_ext. intros _ p _. simpl.
  rewrite stop_today_lookup_ne by done. f_equal.
  rewrite <-list_fmap_compose. apply list_fmap_ext. intros _ sub _. simpl.
  by rewrite stop_today_lookup_ne.
Qed.

Lemma records_at_stop_all_timers m :
  records_at today (stop_all_timers today now m)
  = stopped_records today now <$> records_at today m.
Proof.
  unfold records_at, stop_all_timers. simpl.
  rewrite <-!list_fmap_compose. apply list_fmap_ext. intros _ p _. simpl.
  rewrite stop_today_lookup. unfold stopped_records. simpl. f_equal.
  rewrite <-!list_fmap_compose. apply list_fmap_ext. intros _ sub _. simpl.
  by rewrite stop_today_lookup.
Qed.

Lemma find_project_stop al (ps : list Project) :
  find_project al (stop_project today now <$> ps)
  = prod_map id (stop_project today now) <$> find_project al ps.
Proof. unfold find_project. by rewrite list_find_fmap. Qed.

Lemma find_sub_activity_stop al (subs : list SubActivity) :
  find_sub_activity al (stop_sub_activity today now <$> subs)
  = prod_map id (stop_sub_activity today now) <$> find_sub_activity al subs.
Proof. unfold find_sub_activity. by rewrite list_find_fmap. Qed.

Lemma current_project_index_stop m :
  current_project_index (stop_all_timers today now m)
  = current_project_index m.
Proof.
  unfold current_project_index. simpl.
  destruct (truthy _); [|done].
  destruct (current_project_alias m) as [al|]; [|done]. simpl.
  rewrite find_project_stop. by destruct (find_project al (projects m)).
Qed.

Lemma stop_all_timers_quiet m :
  manager_consistent_at today m →
  Forall (λ p, running_at today (time_records p) = false
               ∧ Forall (λ sub, running_at today (sub_time_records sub)
                                = false)
                        (sub_activities p))
         (projects (stop_all_timers today now m)).
Proof.
  unfold manager_consistent_at, all_record_maps. rewrite Forall_bind.
  intros Hc. simpl. rewrite Forall_fmap.
  eapply Forall_impl; [exact Hc|]. intros p Hp. simpl.
  unfold project_records in Hp. apply Forall_cons in Hp as [Hp Hsubs].
  split; [by apply stop_today_not_running|].
  rewrite Forall_fmap in Hsubs. rewrite Forall_fmap.
  eapply Forall_impl; [exact Hsubs|]. intros sub Hsub. simpl.
  by apply stop_today_not_running.
Qed.
End stop_all_timers.

(** C10. [stop_all_timers] touches only the records keyed by today's
    date: the record of every other date, of every project and
    sub-activity, is the one that was there (so a record left running
    under a past date stays running), and what is under today's key
    afterwards is today's record, created empty where absent and
    stopped where it was running. *)
Theorem stop_all_timers_only_today today now m d :
  d ≠ today →
  records_at d (stop_all_timers today now m) = records_at d m
  ∧ records_at today (stop_all_timers today now m)
    = stopped_records today now <$> records_at today m
  ∧ (∀ p r, p ∈ projects m → time_records p !! d = Some r →
       is_running r = true →
       ∃ p', p' ∈ projects (stop_all_timers today now m)
             ∧ alias p' = alias p ∧ time_records p' !! d = Some r).
Proof.
  intros Hd. split; [|split].
  - by apply records_at_stop_all_timers_ne.
  - apply records_at_stop_all_timers.
  - intros p r Hp Hr _. exists (stop_project today now p).
    split; [|split].
    + simpl. by apply list_elem_of_fmap_2.
    + done.
    + simpl. by rewrite stop_today_lookup_ne.
Qed.

(** ** Counting what runs after an in-place update *)

Section counting.
Context {A : Type} (P : A → Prop) `{!∀ x, Decision (P x)}.

Lemma filter_none (l : list A) : Forall (λ x, ¬ P x) l → filter P l = [].
Proof.
  induction 1 as [|x l Hx _ IH]; [done|].
  by rewrite filter_cons_False.
Qed.


End counting.

(** ** [start_current_timer] *)

Section start_current_timer.
Context (today : string) (now : Z).
Implicit Types (m : ProjectDataManager) (p : Project) (sub : SubActivity).

Lemma current_project_index_None m :
  current_project_index m = None ↔ get_current_project m = None.
Proof.
  unfold current_project_index, get_current_project, get_project.
  destruct (truthy _); [|done].
  destruct (current_project_alias m) as [al|]; [|done]. simpl.
  by destruct (find_project al (projects m)).
Qed.

Lemma current_project_index_lookup m i :
  current_project_index m = Some i →
  ∃ p, projects m !! i = Some p ∧ get_current_project m = Some p.
Proof.
  unfold current_project_index, get_current_project, get_project.
  destruct (truthy _); [|done].
  destruct (current_project_alias m) as [al|]; [|done]. simpl.
  destruct (find_project al (projects m)) as [[k p]|] eqn:Hfind; [|done].
  intros [= <-]. exists p. split; [|done].
  by apply list_find_Some in Hfind as (? & _).
Qed.

Lemma sub_activities_start_selected_sub sel p :
  sub_activities (start_selected_sub today now sel
                    (start_project_today today now p))
  = sub_activities p
  ∨ ∃ j, sub_activities (start_selected_sub today now sel
                           (start_project_today today now p))
         = alter (start_sub_today today now) j (sub_activities p).
Proof.
  unfold start_selected_sub. destruct (truthy sel); [|by left].
  simpl. destruct (sel ≫= _) as [[j ?]|]; [|by left].
  right. by exists j.
Qed.

Lemma time_records_start_selected_sub sel p :
  time_records (start_selected_sub today now sel p) = time_records p.
Proof.
  unfold start_selected_sub. destruct (truthy sel); [|done].
  by destruct (sel ≫= _) as [[j ?]|].
Qed.
End start_current_timer.



(** ** Selection *)

(** C3, as the code has it. When [set_current_project(x)] succeeds, that
    is when [x] is the alias of a project, it selects [x] and
    [current_sub_activity_alias] is null afterwards, whatever it was;
    when [x] is not the alias of a project the call returns false and
    changes nothing. *)
Theorem set_current_project_clears_sub_activity al m :
  ((set_current_project al m).2 = true ↔ is_Some (get_project al m))
  ∧ ((set_current_project al m).2 = true →
     current_project_alias (set_current_project al m).1 = Some al
     ∧ current_sub_activity_alias (set_current_project al m).1 = None)
  ∧ ((set_current_project al m).2 = false →
     (set_current_project al m).1 = m).
Proof.
  unfold set_current_project.
  destruct (get_project al m) as [p|]; simpl.
  - split; [|done]. split; [by eauto|done].
  - split; [|done]. split; [done|]. by intros [? ?].
Qed.

(** ** Sub-activities of a project *)

Lemma find_sub_activity_None al (subs : list SubActivity) :
  find_sub_activity al subs = None ↔ al ∉ sub_alias <$> subs.
Proof.
  unfold find_sub_activity. rewrite list_find_None, Forall_forall.
  rewrite list_elem_of_fmap. split.
  - intros H (sub & -> & Hsub). by apply (H sub).
  - intros H sub Hsub Heq. apply H. by exists sub.
Qed.

(** C5, as the code has it. [add_sub_activity(name, a)] checks nothing:
    it appends a sub-activity with no records and returns it, also when
    the project already has one with alias [a].  The check is with the
    caller: [set_current_sub_activity] adds only an alias the current
    project does not have, so it keeps the aliases of each project free
    of duplicates. *)
Theorem add_sub_activity_appends nm al p :
  add_sub_activity nm al p
  = (mkProject (name p) (dz_number p) (alias p)
               (sub_activities p ++ [mkSubActivity nm al ∅])
               (time_records p),
     mkSubActivity nm al ∅)
  ∧ (∀ m o,
       Forall (λ q, NoDup (sub_alias <$> sub_activities q)) (projects m) →
       Forall (λ q, NoDup (sub_alias <$> sub_activities q))
              (projects (set_current_sub_activity o m).1)).
Proof.
  split; [done|]. intros m [a|] Hm; [|done].
  unfold set_current_sub_activity.
  destruct (current_project_index m) as [i|]; [|done].
  destruct (projects m !! i) as [project|] eqn:Hi; [|done].
  unfold get_sub_activity.
  destruct (find_sub_activity a (sub_activities project)) as [[j s]|] eqn:Hfind;
    simpl; [done|].
  case_bool_decide; [|done]. simpl.
  apply Forall_insert; [done|]. simpl.
  rewrite fmap_app. simpl. apply NoDup_app. split; [|split].
  - by apply (Forall_lookup_1 _ _ _ _ Hm Hi).
  - intros x Hx ->%list_elem_of_singleton.
    by apply find_sub_activity_None in Hfind.
  - apply NoDup_singleton.
Qed.

(** ** Loading *)

Lemma load_projects_returned_false file m :
  (load_projects file m).2 = Value false → (load_projects file m).1 = m.
Proof.
  destruct file as [| |data]; [done..|].
  destruct data as [| | | | | |data]; try done. simpl.
  destruct (from_option load_project_list _ _ ≫= _) as [m'| |e]; done.
Qed.

(** C6, as the code has it. On a data file that is not JSON
    [load_projects] raises nothing and returns false, and whenever it
    returns false the projects and both selection pointers are the ones
    from before the call: an empty graph and no selection in a manager
    that was just constructed, nothing being reset otherwise.  A document
    without the [projects] key raises nothing and leaves the project list
    as it was, which is empty in a manager that was just constructed. *)
Theorem load_projects_keeps_state m :
  load_projects Unparsable m = (m, Value false)
  ∧ (∀ file,
       (load_projects file m).2 = Value false → (load_projects file m).1 = m)
  ∧ (∀ now cfg file,
       (load_projects file (init_manager now cfg)).2 = Value false →
       projects (load_projects file (init_manager now cfg)).1 = []
       ∧ current_project_alias (load_projects file (init_manager now cfg)).1
         = None
       ∧ current_sub_activity_alias
           (load_projects file (init_manager now cfg)).1 = None)
  ∧ (∀ data,
       dict_get "projects" data = None →
       projects (load_projects (Parsed (JDict data)) m).1 = projects m
       ∧ ∀ e, (load_projects (Parsed (JDict data)) m).2 ≠ Raise e)
  ∧ (∀ now cfg data,
       dict_get "projects" data = None →
       projects (load_projects (Parsed (JDict data)) (init_manager now cfg)).1
       = []).
Proof.
  assert (∀ m' data,
    dict_get "projects" data = None →
    projects (load_projects (Parsed (JDict data)) m').1 = projects m'
    ∧ ∀ e, (load_projects (Parsed (JDict data)) m').2 ≠ Raise e) as Hkey.
  { intros m' data Hdata. simpl. rewrite Hdata. simpl.
    destruct (from_option as_optional_str _
                (dict_get "current_project_alias" _))
      as [cp| |e] eqn:Hcp; simpl.
    - destruct (from_option as_optional_str _
                  (dict_get "current_sub_activity_alias" _))
        as [cs| |e] eqn:Hcs; simpl; [done..|].
      destruct (dict_get "current_sub_activity_alias" data) as [[]|]; done.
    - done.
    - destruct (dict_get "current_project_alias" data) as [[]|]; done. }
  split; [done|].
  split; [intros file; apply load_projects_returned_false|].
  split; [|split].
  - intros now cfg file ->%load_projects_returned_false. done.
  - intros data. apply Hkey.
  - intros now cfg data Hdata. by destruct (Hkey (init_manager now cfg) data).
Qed.

(** A project without its required fields: the TypeError of the
    constructor is not among the exceptions [load_projects] catches. *)
Lemma load_projects_missing_fields_raises :
  (load_projects (Parsed Scenario.project_without_fields) Scenario.fresh).2
  = Raise TypeError.
Proof. reflexivity. Qed.

(** What was saved is loaded back: the graph and the selection of a
    manager with a timer left running. *)
Lemma load_projects_reads_saved_document :
  let saved :=
    save_projects "tick_tock_projects"
      (Scenario.save_at true 2000 "20250813_120000")
      Scenario.alpha_from_yesterday Scenario.no_files in
  load_projects (data_file saved.1.2) Scenario.fresh
  = (set_selection (Some "alpha") (Some "dev")
       (set_projects (projects Scenario.alpha_from_yesterday) Scenario.fresh),
     Value true).
Proof. vm_compute. reflexivity. Qed.

(** ** Saving *)






(** ** Backup names and their order *)

Section strings.
Implicit Types (s p q : string).

Lemma string_app_cons a s q : String a s +:+ q = String a (s +:+ q).
Proof. reflexivity. Qed.






Lemma string_compare_refl s : (s ?= s)%string = Eq.
Proof.
  induction s as [|a s IH]; [done|]. simpl.
  unfold Ascii.compare. by rewrite N.compare_refl.
Qed.

Lemma string_compare_app_l p s q :
  (p +:+ s ?= p +:+ q)%string = (s ?= q)%string.
Proof.
  induction p as [|a p IH]; [done|].
  rewrite !string_app_cons. simpl.
  unfold Ascii.compare. by rewrite N.compare_refl.
Qed.

Lemma string_compare_app_r p : ∀ s q,
  String.length s = String.length q →
  (s +:+ p ?= q +:+ p)%string = (s ?= q)%string.
Proof.
  induction s as [|a s IH]; intros [|b q] Hlen; try done.
  - apply string_compare_refl.
  - injection Hlen as Hlen. rewrite !string_app_cons.
    cbn [String.compare]. by rewrite IH.
Qed.

Lemma backup_name_compare stem s q :
  String.length s = String.length q →
  (backup_name stem s ?= backup_name stem q)%string = (s ?= q)%string.
Proof.
  intros Hlen. unfold backup_name.
  by rewrite !string_compare_app_l, string_compare_app_r.
Qed.

Lemma string_ltb_sorts_before s q : String.ltb s q = true → sorts_before s q.
Proof.
  unfold sorts_before, String.ltb, String.le, String.leb.
  destruct (s ?= q)%string eqn:Hcmp; try done. intros _. split; [done|].
  intros ->. by rewrite string_compare_refl in Hcmp.
Qed.

Lemma backup_name_before stem s q :
  stamp_before s q →
  sorts_before (backup_name stem s) (backup_name stem q).
Proof.
  intros (Hs & Hq & Hlt). apply string_ltb_sorts_before.
  unfold String.ltb in *. by rewrite backup_name_compare by congruence.
Qed.
End strings.

(** ** The backups of a directory *)

Section backups.
Context (stem : string).
Implicit Types (dir : gset string) (l : list string).








(** With the bound 0 the slice is [l[:-0]], the empty list: nothing is
    removed, however many backups there are. *)
Lemma cleanup_bound_zero failure dir :
  _cleanup_old_backups stem 0 failure dir = dir.
Proof.
  unfold _cleanup_old_backups.
  destruct (0 <? _)%Z; [|done].
  change (slice_until (- 0) (backup_files stem dir)) with (@nil string).
  destruct failure as [n|]; rewrite ?take_nil; simpl;
    by rewrite difference_empty_L.
Qed.

End backups.

(** ** A run of saves *)

Section save_all.
Context (stem : string) (k : nat).
Implicit Types (m : ProjectDataManager) (fs : FileSystem)
  (c : save_call) (cs : list save_call) (created : list string).







Lemma backup_names_sorted cs :
  StronglySorted stamp_before (stamp <$> cs) →
  StronglySorted sorts_before (backup_names stem cs).
Proof.
  induction cs as [|c cs IH]; [constructor|].
  simpl. intros [Hc Hcs]%StronglySorted_cons.
  apply StronglySorted_cons. split; [|by apply IH].
  apply Forall_fmap. rewrite Forall_fmap in Hc.
  eapply Forall_impl; [exact Hc|]. intros c' Hc'. simpl in *.
  by apply backup_name_before.
Qed.

End save_all.


(** * Concrete cases *)

(** ** Instances of the properties above *)

Lemma stop_timing_running_without_start_witness :
  stop_timing 5000000 Scenario.running_without_start
  = Scenario.running_without_start
  ∧ is_running (stop_timing 5000000 Scenario.running_without_start) = true
  ∧ total_seconds (stop_timing 5000000 Scenario.running_without_start)
    = total_seconds Scenario.running_without_start
  ∧ last_started (stop_timing 5000000 Scenario.running_without_start) = None.
Proof.
  apply (stop_timing_running_without_start 5000000
           Scenario.running_without_start); reflexivity.
Defined.

Lemma stop_all_timers_only_today_witness :
  records_at "2025-08-12"
    (stop_all_timers Scenario.today (Scenario.at_second 90000)
       Scenario.alpha_from_yesterday)
  = records_at "2025-08-12" Scenario.alpha_from_yesterday.
Proof.
  apply (stop_all_timers_only_today Scenario.today (Scenario.at_second 90000)
           Scenario.alpha_from_yesterday "2025-08-12").
  discriminate.
Defined.




Lemma set_current_project_clears_sub_activity_witness :
  current_project_alias (set_current_project "alpha" Scenario.alpha_dev).1
  = Some "alpha"
  ∧ current_sub_activity_alias
      (set_current_project "alpha" Scenario.alpha_dev).1 = None.
Proof.
  destruct (set_current_project_clears_sub_activity "alpha" Scenario.alpha_dev)
    as (_ & Hcleared & _).
  apply Hcleared. reflexivity.
Defined.


Lemma add_sub_activity_appends_witness :
  Forall (λ q, NoDup (sub_alias <$> sub_activities q))
         (projects (set_current_sub_activity (Some "dev")
                      Scenario.alpha_selected).1).
Proof.
  destruct (add_sub_activity_appends "Development" "dev"
              Scenario.project_with_dev) as (_ & Hcaller).
  apply Hcaller. repeat constructor.
Defined.

Lemma load_projects_keeps_state_witness :
  projects (load_projects Unparsable Scenario.fresh).1 = []
  ∧ current_project_alias (load_projects Unparsable Scenario.fresh).1 = None
  ∧ current_sub_activity_alias (load_projects Unparsable Scenario.fresh).1
    = None.
Proof.
  destruct (load_projects_keeps_state Scenario.fresh)
    as (_ & _ & Hfresh & _).
  apply (Hfresh (Scenario.at_second 1000) Scenario.cfg Unparsable).
  reflexivity.
Defined.

(** ** Where the stated properties fail *)


(** The records of another day are out of reach of [stop_all_timers]:
    a timer left running the day before stays so, next to the two that
    are started today. *)
Lemma start_current_timer_after_midnight :
  running_count
    (start_current_timer Scenario.today (Scenario.at_second 90000)
       Scenario.alpha_from_yesterday).1 = 4.
Proof. vm_compute. reflexivity. Qed.

(** A record of today that a file flags as running without a start is
    not stopped by [stop_all_timers]: it runs next to the record that is
    started. *)
Lemma start_current_timer_after_load :
  projects_running_at Scenario.today
    (start_current_timer Scenario.today (Scenario.at_second 1000)
       Scenario.loaded_running_without_start).1 = 2.
Proof. vm_compute. reflexivity. Qed.

(** C3 as stated: an alias that names no project leaves the selected
    sub-activity in place. *)
Lemma set_current_project_unknown_alias :
  ¬ (current_sub_activity_alias
       (set_current_project "gamma" Scenario.alpha_dev).1 = None).
Proof. vm_compute. discriminate. Qed.


(** C5 as stated: a second sub-activity with the alias [dev] is
    accepted. *)
Lemma add_sub_activity_accepts_duplicate :
  ¬ (sub_activities
       (add_sub_activity "Development again" "dev" Scenario.project_with_dev).1
     = sub_activities Scenario.project_with_dev).
Proof. vm_compute. discriminate. Qed.

Lemma add_sub_activity_duplicate_aliases :
  sub_alias <$> sub_activities
    (add_sub_activity "Development again" "dev" Scenario.project_with_dev).1
  = ["dev"; "dev"].
Proof. reflexivity. Qed.

(** C6 as stated: a manager that holds projects keeps them, and its
    selection, when the file it loads is not JSON. *)
Lemma load_projects_unparsable_keeps_projects :
  ¬ ((load_projects Unparsable Scenario.alpha_dev).2 = Value false
     ∧ projects (load_projects Unparsable Scenario.alpha_dev).1 = []
     ∧ current_project_alias (load_projects Unparsable Scenario.alpha_dev).1
       = None
     ∧ current_sub_activity_alias
         (load_projects Unparsable Scenario.alpha_dev).1 = None).
Proof. intros (_ & H & _). vm_compute in H. discriminate H. Qed.


(** With [max_backups = 0] the clean-up removes nothing: after four
    saves the three backups that were made are all there. *)
Lemma backups_with_bound_zero :
  backup_files Scenario.stem
    (backup_dir (save_all Scenario.stem Scenario.four_saves
                   Scenario.keeps_none Scenario.no_files).2)
  = ["tick_tock_projects_backup_20250813_101740.json";
     "tick_tock_projects_backup_20250813_101840.json";
     "tick_tock_projects_backup_20250813_101940.json"].
Proof. vm_compute. reflexivity. Qed.


(** ** The scenarios of the specification *)

(** Project and sub-activity selected: both records of today run. *)
Lemma start_current_timer_project_and_sub_activity :
  records_at Scenario.today
    (start_current_timer Scenario.today (Scenario.at_second 1000)
       Scenario.alpha_dev).1
  = [(Some (mkTimeRecord Scenario.today 0 (Some (Scenario.at_second 1000))
                         true ∅),
      [Some (mkTimeRecord Scenario.today 0 (Some (Scenario.at_second 1000))
                          true ∅)])].
Proof. vm_compute. reflexivity. Qed.

(** A document without the [projects] key, loaded into a new manager. *)
Lemma load_projects_without_projects_key :
  load_projects (Parsed Scenario.no_projects_key) Scenario.fresh
  = (set_selection (Some "alpha") None Scenario.fresh, Value true).
Proof. reflexivity. Qed.

(** * Further properties *)

(** ** TimeRecord *)

(** X1. What [get_current_total_seconds] shows at a clock reading is what
    [stop_timing] banks at that reading; it is never less than the banked
    total, and at least one second more while a run is open. *)
Theorem stop_timing_banks_what_is_displayed now r :
  total_seconds (stop_timing now r) = get_current_total_seconds now r
  ∧ (total_seconds r ≤ get_current_total_seconds now r)%Z
  ∧ (∀ start_time, open_run r = Some start_time →
       (total_seconds r + 1 ≤ get_current_total_seconds now r)%Z).
Proof.
  unfold stop_timing, get_current_total_seconds, open_run, elapsed_seconds.
  destruct (is_running r), (last_started r) as [start_time|]; simpl;
    repeat split; try done; try lia.
Qed.

Lemma sum_Z_run_seconds_nonneg (runs : list (Z * Z)) :
  (0 ≤ sum_Z (run_seconds <$> runs))%Z.
Proof.
  induction runs as [|run runs IH]; [done|].
  change (sum_Z (run_seconds <$> run :: runs))
    with (elapsed_seconds run.1 run.2 + sum_Z (run_seconds <$> runs))%Z.
  pose proof (elapsed_seconds_pos run.1 run.2). lia.
Qed.

(** X2. Whatever [start_timing] and [stop_timing] calls are made at
    whatever clock readings, also readings that go backwards, the banked
    total never decreases; the date and the per-sub-activity seconds of
    the record are never touched. *)
Theorem total_seconds_never_decreases r cs :
  (total_seconds r ≤ total_seconds (run_calls r cs))%Z
  ∧ date (run_calls r cs) = date r
  ∧ sub_activity_seconds (run_calls r cs) = sub_activity_seconds r.
Proof.
  split.
  - rewrite run_calls_total.
    pose proof (sum_Z_run_seconds_nonneg (completed_runs (open_run r) cs)).
    lia.
  - revert r. induction cs as [|c cs IH]; intros r; [done|]. simpl.
    destruct (IH (run_call r c)) as [-> ->].
    destruct c as [now|now]; simpl; [done|].
    unfold stop_timing. by destruct (is_running r), (last_started r).
Qed.

Lemma record_consistent_start_timing now r :
  record_consistent (start_timing now r).
Proof. unfold record_consistent. simpl. split; by eauto. Qed.

Lemma record_consistent_stop_timing now r :
  record_consistent r → record_consistent (stop_timing now r).
Proof.
  unfold record_consistent, stop_timing.
  destruct (is_running r) eqn:Hrun, (last_started r) as [start_time|] eqn:Hs;
    simpl; rewrite ?Hrun, ?Hs; done.
Qed.

Lemma record_consistent_run_calls cs : ∀ r,
  record_consistent r → record_consistent (run_calls r cs).
Proof.
  induction cs as [|[now|now] cs IH]; intros r Hr; simpl; [done|..].
  - apply IH, record_consistent_start_timing.
  - by apply IH, record_consistent_stop_timing.
Qed.

(** X3. A record that is flagged as running exactly when [last_started]
    is set stays so under every sequence of [start_timing] and
    [stop_timing] calls; and whatever the record was, it is so after a
    sequence that contains a [start_timing]. *)
Theorem run_calls_keep_record_consistent r cs :
  record_consistent r ∨ (∃ now, StartTiming now ∈ cs) →
  record_consistent (run_calls r cs).
Proof.
  intros [Hr|[now Hnow]]; [by apply record_consistent_run_calls|].
  apply list_elem_of_split in Hnow as (cs1 & cs2 & ->).
  unfold run_calls. rewrite fold_left_app. simpl.
  apply record_consistent_run_calls, record_consistent_start_timing.
Qed.

(** ** Today's record *)

(** X4. [get_today_record] leaves today's key holding the record it
    returns and every other key as it was; the record is the one that
    was there, and the dict is then unchanged, or else a new record for
    today with nothing banked and not running; asking again changes
    nothing more. *)
Theorem get_today_record_lookup today (recs : gmap string TimeRecord) :
  (get_today_record today recs).1 !! today
  = Some (get_today_record today recs).2
  ∧ (∀ d, d ≠ today → (get_today_record today recs).1 !! d = recs !! d)
  ∧ (∀ r, recs !! today = Some r →
       get_today_record today recs = (recs, r))
  ∧ (recs !! today = None →
     (get_today_record today recs).2 = mkTimeRecord today 0 None false ∅)
  ∧ get_today_record today (get_today_record today recs).1
    = get_today_record today recs.
Proof.
  unfold get_today_record.
  destruct (recs !! today) as [r|] eqn:Hr; simpl.
  - rewrite Hr. repeat split; try done. by intros r' [= ->].
  - rewrite lookup_insert_eq. repeat split; try done.
    intros d Hd. by rewrite lookup_insert_ne.
Qed.

(** ** Looking up by alias *)

Section find.
Context {A : Type} (P : A → Prop) `{!∀ x, Decision (P x)}.

Lemma list_find_is_Some (l : list A) :
  is_Some (list_find P l) ↔ ∃ x, x ∈ l ∧ P x.
Proof.
  split.
  - intros [[i x] (Hi & Hx & _)%list_find_Some]. exists x.
    split; [by eapply list_elem_of_lookup_2|done].
  - intros (x & Hx & HP). by eapply list_find_elem_of.
Qed.

(** Deleting an element the predicate rejects does not change what is
    found. *)
Lemma list_find_delete_other (l : list A) : ∀ i x,
  l !! i = Some x → ¬ P x →
  snd <$> list_find P (delete i l) = snd <$> list_find P l.
Proof.
  induction l as [|y l IH]; intros [|i] x Hi Hx; simplify_eq/=.
  - rewrite decide_False by done. by destruct (list_find P l) as [[j z]|].
  - case_decide; [done|]. specialize (IH i x Hi Hx).
    destruct (list_find P (delete i l)) as [[j z]|],
      (list_find P l) as [[j' z']|]; by simplify_eq/=.
Qed.

End find.


Lemma get_sub_activity_is_Some al p :
  is_Some (get_sub_activity al p) ↔ al ∈ sub_alias <$> sub_activities p.
Proof.
  unfold get_sub_activity, find_sub_activity.
  rewrite fmap_is_Some, list_find_is_Some, list_elem_of_fmap.
  split; intros (sub & ? & ?); by exists sub.
Qed.


Lemma get_project_alias al m p : get_project al m = Some p → alias p = al.
Proof.
  unfold get_project, find_project.
  destruct (list_find _ _) as [[i q]|] eqn:Hfind; [|done].
  intros [= <-]. by apply list_find_Some in Hfind as (_ & ? & _).
Qed.

(** ** Sub-activities of a project *)


(** X6. After [add_sub_activity(name, a)] the lookup of an alias finds
    what it found before, and where it found nothing it finds the new
    sub-activity if the alias is [a]: a sub-activity added under an alias
    that is already there is never found by [get_sub_activity]. *)
Theorem get_sub_activity_after_add nm al p al' :
  get_sub_activity al' (add_sub_activity nm al p).1
  = match get_sub_activity al' p with
    | Some sub => Some sub
    | None => if decide (al = al') then Some (mkSubActivity nm al ∅) else None
    end.
Proof.
  unfold get_sub_activity, find_sub_activity, add_sub_activity. simpl.
  destruct (list_find _ (sub_activities p)) as [[i sub]|] eqn:Hfind; simpl.
  - by rewrite (list_find_app_l _ _ _ _ _ Hfind).
  - rewrite list_find_app_r by done. simpl.
    case_decide; simpl; by rewrite ?decide_True, ?decide_False by done.
Qed.

(** ** Projects of the manager *)

Section projects.
Implicit Types (m : ProjectDataManager) (p : Project).

Lemma set_projects_same m : set_projects (projects m) m = m.
Proof. by destruct m. Qed.




End projects.




(** ** The selection *)

Section selection.
Implicit Types (m : ProjectDataManager) (p : Project).

Lemma project_extends_refl p : project_extends p p.
Proof. by split. Qed.

Lemma find_project_extends (l l' : list Project) c j p :
  Forall2 project_extends l l' →
  find_project c l = Some (j, p) →
  ∃ p', find_project c l' = Some (j, p') ∧ project_extends p p'.
Proof.
  intros Hll' (Hj & Hp & Hbefore)%list_find_Some.
  destruct (Forall2_lookup_l _ _ _ _ _ Hll' Hj) as (p' & Hj' & Hpp').
  exists p'. split; [|done].
  apply list_find_Some. split; [done|]. split.
  { destruct Hpp' as [-> _]. done. }
  intros k q' Hk Hlt.
  destruct (Forall2_lookup_r _ _ _ _ _ Hll' Hk) as (q & Hq & [-> _]).
  by apply (Hbefore k q).
Qed.

Lemma get_current_project_extends m m' p :
  Forall2 project_extends (projects m) (projects m') →
  current_project_alias m' = current_project_alias m →
  get_current_project m = Some p →
  ∃ p', get_current_project m' = Some p' ∧ project_extends p p'.
Proof.
  intros Hext Hcur. unfold get_current_project, get_project.
  rewrite Hcur. destruct (truthy _); [|done].
  destruct (current_project_alias m) as [c|]; [|done]. simpl.
  destruct (find_project c (projects m)) as [[j q]|] eqn:Hfind; [|done].
  intros [= <-].
  destruct (find_project_extends _ _ _ _ _ Hext Hfind) as (p' & -> & ?).
  by exists p'.
Qed.

Lemma selection_valid_extends m m' :
  Forall2 project_extends (projects m) (projects m') →
  current_project_alias m' = current_project_alias m →
  current_sub_activity_alias m' = current_sub_activity_alias m →
  selection_valid m → selection_valid m'.
Proof.
  intros Hext Hcp Hcs Hm a Ha. rewrite Hcs in Ha.
  destruct (Hm a Ha) as (p & Hp & Hsub).
  destruct (get_current_project_extends _ _ _ Hext Hcp Hp)
    as (p' & Hp' & _ & Hsubs).
  exists p'. split; [done|].
  apply get_sub_activity_is_Some, Hsubs. by apply get_sub_activity_is_Some.
Qed.

Lemma project_extends_stop today now p :
  project_extends p (stop_project today now p).
Proof.
  split; [done|]. simpl. rewrite <-list_fmap_compose. done.
Qed.

Lemma project_extends_start today now sel p :
  project_extends p
    (start_selected_sub today now sel (start_project_today today now p)).
Proof.
  split.
  - unfold start_selected_sub. destruct (truthy sel); [|done].
    by destruct (sel ≫= _) as [[j ?]|].
  - destruct (sub_activities_start_selected_sub today now sel p)
      as [->|[j ->]]; [done|].
    rewrite (list_fmap_alter sub_alias (start_sub_today today now) id).
    + by rewrite list_alter_id.
    + apply Forall_forall. by intros sub _.
Qed.

Lemma project_extends_touch today p :
  project_extends p
    (mkProject (name p) (dz_number p) (alias p)
       ((λ sub, set_sub_time_records
                  (touch_today today (sub_time_records sub)) sub)
          <$> sub_activities p)
       (touch_today today (time_records p))).
Proof. split; [done|]. simpl. by rewrite <-list_fmap_compose. Qed.

Lemma Forall2_project_extends_fmap (f : Project → Project)
    (l : list Project) :
  (∀ p, project_extends p (f p)) → Forall2 project_extends l (f <$> l).
Proof.
  intros Hf. apply Forall2_fmap_r, Forall_Forall2_diag, Forall_forall.
  intros p _. apply Hf.
Qed.

Lemma Forall2_project_extends_alter (f : Project → Project)
    (l : list Project) i :
  (∀ p, project_extends p (f p)) →
  Forall2 project_extends l (alter f i l).
Proof.
  intros Hf. apply Forall2_alter_r.
  - apply Forall_Forall2_diag, Forall_forall. intros p _.
    apply project_extends_refl.
  - intros p q Hp Hq _. rewrite Hp in Hq. injection Hq as <-. apply Hf.
Qed.

Lemma current_project_index_Some m i :
  current_project_index m = Some i →
  ∃ c p, current_project_alias m = Some c
         ∧ find_project c (projects m) = Some (i, p)
         ∧ get_current_project m = Some p.
Proof.
  unfold current_project_index, get_current_project, get_project.
  destruct (truthy _); [|done].
  destruct (current_project_alias m) as [c|]; [|done]. simpl.
  destruct (find_project c (projects m)) as [[j p]|] eqn:Hfind; [|done].
  intros [= <-]. by exists c, p.
Qed.
End selection.

(** X10. A selected sub-activity that is one of the current project's
    stays so under the operations of the manager on selection, projects
    and timers: [set_current_project], [set_current_sub_activity],
    [add_project], [remove_project], [stop_all_timers],
    [start_current_timer] and [update_running_timers]. *)
Theorem selection_stays_valid m :
  selection_valid m →
  (∀ al, selection_valid (set_current_project al m).1)
  ∧ (∀ o, selection_valid (set_current_sub_activity o m).1)
  ∧ (∀ nm dz al b, selection_valid (add_project nm dz al b m).1)
  ∧ (∀ al, selection_valid (remove_project al m).1)
  ∧ (∀ today now, selection_valid (stop_all_timers today now m))
  ∧ (∀ today now, selection_valid (start_current_timer today now m).1)
  ∧ (∀ today, selection_valid (update_running_timers today m)).
Proof.
  intros Hm.
  assert (∀ today now, selection_valid (stop_all_timers today now m))
    as Hstop.
  { intros today now. apply (selection_valid_extends m); [|done..].
    apply Forall2_project_extends_fmap. apply project_extends_stop. }
  split; [|split; [|split; [|split; [|split; [done|split]]]]].
  - intros al. unfold set_current_project.
    destruct (get_project al m); [|done]. by intros a Ha.
  - intros [a|]; [|by intros a Ha].
    unfold set_current_sub_activity.
    destruct (current_project_index m) as [i|] eqn:Hi; [|done].
    destruct (current_project_index_Some m i Hi) as (c & p & Hc & Hfind & Hp).
    pose proof Hfind as (-> & _)%list_find_Some.
    destruct (get_sub_activity a p) as [sub|] eqn:Hsub.
    { intros a' [= <-]. exists p. split; [done|]. by rewrite Hsub. }
    case_bool_decide; [|done].
    intros a' [= <-]. simpl in *.
    set (p' := set_sub_activities _ p).
    assert (project_extends p p') as Hpp'.
    { split; [done|]. simpl. rewrite fmap_app.
      intros x Hx. apply elem_of_app. by left. }
    assert (Forall2 project_extends (projects m) (<[i:=p']> (projects m)))
      as Hext.
    { rewrite <-(list_insert_id (projects m) i p) at 1
        by (by apply list_find_Some in Hfind as (? & _)).
      apply Forall2_insert; [|done].
      apply Forall_Forall2_diag, Forall_forall. intros q _.
      apply project_extends_refl. }
    destruct (find_project_extends _ _ c i p Hext Hfind) as (q & Hq & _).
    pose proof Hq as (Hiq & _)%list_find_Some.
    rewrite list_lookup_insert_eq in Hiq
      by (apply list_find_Some in Hfind as (?%lookup_lt_Some & _); done).
    injection Hiq as <-.
    exists p'. split.
    + unfold get_current_project, get_project in *. simpl.
      rewrite Hc in *. destruct (truthy (Some c)); [|done]. simpl.
      by rewrite Hq.
    + apply get_sub_activity_is_Some. simpl. rewrite fmap_app.
      apply elem_of_app. right. by apply list_elem_of_singleton.
  - intros nm dz al b. unfold add_project.
    destruct (get_project _ m); [done|]. intros a Ha. simpl in *.
    destruct (Hm a Ha) as (p & Hp & Hsub). exists p. split; [|done].
    unfold get_current_project, get_project in *. simpl.
    destruct (truthy _); [|done].
    destruct (current_project_alias m) as [c|]; [|done]. simpl in *.
    destruct (find_project c (projects m)) as [[j q]|] eqn:Hfind; [|done].
    unfold find_project in *.
    by rewrite (list_find_app_l _ _ _ _ _ Hfind).
  - intros al. unfold remove_project.
    destruct (find_project al (projects m)) as [[i q]|] eqn:Hfind; [|done].
    case_bool_decide as Hcur; [by intros a Ha|].
    intros a Ha. simpl in *.
    destruct (Hm a Ha) as (p & Hp & Hsub). exists p. split; [|done].
    unfold get_current_project, get_project in *. simpl.
    destruct (truthy _); [|done].
    destruct (current_project_alias m) as [c|]; [|done]. simpl in *.
    pose proof Hfind as (Hi & Hq & _)%list_find_Some.
    unfold find_project in *.
    rewrite (list_find_delete_other _ _ i q); [done..|congruence].
  - intros today now. unfold start_current_timer.
    destruct (current_project_index _) as [i|]; [|by apply Hstop].
    apply (selection_valid_extends (stop_all_timers today now m));
      [|done..|by apply Hstop].
    apply Forall2_project_extends_alter. intros p.
    apply project_extends_start.
  - intros today. apply (selection_valid_extends m); [|done..].
    apply Forall2_project_extends_fmap. apply project_extends_touch.
Qed.

(** ** Selecting and asking back *)

Lemma find_project_insert_same_alias (l : list Project) c i p p' :
  find_project c l = Some (i, p) → alias p' = alias p →
  find_project c (<[i:=p']> l) = Some (i, p').
Proof.
  intros (Hi & Hp & Hbefore)%list_find_Some Halias.
  apply list_find_Some. split; [|split].
  - apply list_lookup_insert_eq. by apply lookup_lt_Some in Hi.
  - congruence.
  - intros j q Hj Hlt. rewrite list_lookup_insert_ne in Hj by lia.
    by apply (Hbefore j q).
Qed.

Lemma get_sub_activity_alias a p sub :
  get_sub_activity a p = Some sub → sub_alias sub = a.
Proof.
  unfold get_sub_activity, find_sub_activity.
  destruct (list_find _ _) as [[j s]|] eqn:Hfind; [|done].
  intros [= <-]. by apply list_find_Some in Hfind as (_ & ? & _).
Qed.

Lemma get_sub_activity_added nm a p :
  get_sub_activity a p = None →
  get_sub_activity a (add_sub_activity nm a p).1 = Some (mkSubActivity nm a ∅).
Proof.
  unfold get_sub_activity, find_sub_activity, add_sub_activity. simpl.
  destruct (list_find _ (sub_activities p)) as [[i sub]|] eqn:Hfind; [done|].
  intros _. rewrite list_find_app_r by done. simpl.
  by rewrite decide_True.
Qed.

Lemma nonempty_truthy a : a ≠ "" → negb (String.eqb a "") = true.
Proof. intros Ha. by destruct (String.eqb_spec a ""). Qed.

Lemma truthy_Some a : a ≠ "" → truthy (Some a) = true.
Proof. apply nonempty_truthy. Qed.

(** X11. [set_current_project] followed by [get_current_project]: after
    a call that succeeds, the current project is the one [get_project]
    finds under the alias and no sub-activity is current.  The empty
    alias is the exception: a project with the alias [""] can be
    selected, and the manager then reports no current project. *)
Theorem get_current_project_after_set al m :
  (set_current_project al m).2 = true →
  get_current_sub_activity (set_current_project al m).1 = None
  ∧ (al ≠ "" →
     is_Some (get_project al m)
     ∧ get_current_project (set_current_project al m).1 = get_project al m)
  ∧ (al = "" → get_current_project (set_current_project al m).1 = None).
Proof.
  unfold set_current_project.
  destruct (get_project al m) as [p|] eqn:Hp; [|done]. intros _. simpl.
  split; [|split].
  - unfold get_current_sub_activity. by destruct (get_current_project _).
  - intros Hal. split; [by eauto|].
    unfold get_current_project. simpl.
    by destruct (String.eqb_spec al "").
  - by intros ->.
Qed.

(** X12. [set_current_sub_activity] with an alias succeeds exactly when
    there is a current project that has a sub-activity with the alias or
    the alias is one of the six standard ones; a failing call changes
    nothing.  After a call that succeeds with a non-empty alias,
    [get_current_sub_activity] returns a sub-activity with that alias.
    The aliases of the projects and the current project are never
    changed, and the alias None always succeeds and clears the
    selection. *)
Theorem get_current_sub_activity_after_set a m :
  ((set_current_sub_activity (Some a) m).2 = true
   ↔ ∃ p, get_current_project m = Some p
          ∧ (a ∈ sub_alias <$> sub_activities p
             ∨ a ∈ standard_sub_activities))
  ∧ ((set_current_sub_activity (Some a) m).2 = false →
     (set_current_sub_activity (Some a) m).1 = m)
  ∧ ((set_current_sub_activity (Some a) m).2 = true → a ≠ "" →
     ∃ sub, get_current_sub_activity (set_current_sub_activity (Some a) m).1
            = Some sub
            ∧ sub_alias sub = a)
  ∧ get_project_aliases (set_current_sub_activity (Some a) m).1
    = get_project_aliases m
  ∧ current_project_alias (set_current_sub_activity (Some a) m).1
    = current_project_alias m
  ∧ set_current_sub_activity None m
    = (set_selection (current_project_alias m) None m, true).
Proof.
  unfold set_current_sub_activity.
  destruct (current_project_index m) as [i|] eqn:Hi; cycle 1.
  { apply current_project_index_None in Hi. rewrite Hi. simpl.
    split; [split; [done|by intros (p & ? & _)]|]. repeat split; done. }
  destruct (current_project_index_Some m i Hi) as (c & p & Hc & Hfind & Hp).
  pose proof Hfind as (Hip & Hpc & _)%list_find_Some. rewrite Hip, Hp.
  pose proof (get_sub_activity_is_Some a p) as Hsome.
  destruct (get_sub_activity a p) as [sub|] eqn:Hsub; simpl.
  { split.
    { split; [|done]. intros _. exists p. split; [done|].
      left. apply Hsome. by eauto. }
    split; [done|]. split; [|done].
    intros _ Ha. exists sub. split; [|by eapply get_sub_activity_alias].
    unfold get_current_sub_activity.
    assert (get_current_project
              (set_selection (current_project_alias m) (Some a) m)
            = Some p) as -> by done.
    simpl. rewrite ?truthy_Some, ?nonempty_truthy by done. simpl. done. }
  case_bool_decide as Hstd; simpl.
  - split.
    { split; [|done]. intros _. exists p. split; [done|]. by right. }
    split; [done|].
    set (p' := set_sub_activities _ p).
    pose proof (find_project_insert_same_alias _ c i p p' Hfind eq_refl)
      as Hfind'.
    split.
    + intros _ Ha. exists (mkSubActivity ("Sub Activity " +:+ a) a ∅).
      split; [|done].
      unfold get_current_sub_activity, get_current_project, get_project.
      simpl. rewrite Hc. unfold get_current_project in Hp.
      rewrite Hc in Hp. destruct (truthy (Some c)); [|done]. simpl.
      rewrite Hfind'. simpl.
      rewrite ?truthy_Some, ?nonempty_truthy by done. simpl.
      by apply (get_sub_activity_added ("Sub Activity " +:+ a) a p).
    + split; [|done]. unfold get_project_aliases. simpl.
      rewrite list_fmap_insert. simpl.
      apply list_insert_id. by rewrite list_lookup_fmap, Hip.
  - split; [|done].
    split; [done|]. intros (q & [= <-] & [Hin|Hin]); [|done].
    apply Hsome in Hin as [? ?]. done.
Qed.

(** ** Stopping twice *)

Lemma stop_timing_again now now' r :
  is_running r = true →
  is_running (stop_timing now r) = true →
  stop_timing now' (stop_timing now r) = stop_timing now r.
Proof.
  unfold stop_timing. intros Hr.
  rewrite Hr. destruct (last_started r) as [start_time|] eqn:Hs; [done|].
  by rewrite Hr, Hs.
Qed.

Lemma stop_today_again today now now' (recs : gmap string TimeRecord) :
  stop_today today now' (stop_today today now recs)
  = stop_today today now recs.
Proof.
  pose proof (stop_today_lookup today now recs) as Hlookup.
  unfold stop_today at 1. unfold get_today_record.
  rewrite Hlookup. unfold stopped_record in *. simpl.
  set (r := default (new_record today) (recs !! today)) in *.
  destruct (is_running r) eqn:Hr.
  - destruct (is_running (stop_timing now r)) eqn:Hr'; [|done].
    rewrite stop_timing_again by done. by apply insert_id.
  - by rewrite Hr.
Qed.

Lemma stop_project_again today now now' p :
  stop_project today now' (stop_project today now p)
  = stop_project today now p.
Proof.
  unfold stop_project. simpl. rewrite stop_today_again. f_equal.
  rewrite <-list_fmap_compose. apply list_fmap_ext. intros _ sub _. simpl.
  unfold stop_sub_activity. simpl. by rewrite stop_today_again.
Qed.

Lemma stop_all_timers_again today now now' m :
  stop_all_timers today now' (stop_all_timers today now m)
  = stop_all_timers today now m.
Proof.
  unfold stop_all_timers, set_projects. simpl. f_equal.
  rewrite <-list_fmap_compose. apply list_fmap_ext. intros _ p _. simpl.
  apply stop_project_again.
Qed.

(** X13. [stop_all_timers] is idempotent within a day: a second call, at
    whatever later clock reading of the same date, changes nothing, so
    no time is banked twice. *)
Theorem stop_all_timers_idempotent today now now' m :
  stop_all_timers today now' (stop_all_timers today now m)
  = stop_all_timers today now m.
Proof. apply stop_all_timers_again. Qed.

(** ** What the timer operations keep *)

Section grow.
Context (today : string).
Implicit Types (recs : gmap string TimeRecord) (p : Project)
  (sub : SubActivity).

Lemma records_grow_refl recs : records_grow recs recs.
Proof. intros d r Hr. by exists r. Qed.

Lemma records_grow_trans recs1 recs2 recs3 :
  records_grow recs1 recs2 → records_grow recs2 recs3 →
  records_grow recs1 recs3.
Proof.
  intros H12 H23 d r Hr.
  destruct (H12 d r Hr) as (r2 & Hr2 & ?).
  destruct (H23 d r2 Hr2) as (r3 & Hr3 & ?).
  exists r3. split; [done|lia].
Qed.

Lemma total_seconds_stop_timing now r :
  (total_seconds r ≤ total_seconds (stop_timing now r))%Z.
Proof.
  unfold stop_timing.
  destruct (is_running r), (last_started r) as [start_time|]; simpl;
    try done.
  pose proof (elapsed_seconds_pos start_time now). lia.
Qed.

Lemma records_grow_stop_today now recs :
  records_grow recs (stop_today today now recs).
Proof.
  intros d r Hr. destruct (decide (d = today)) as [->|Hd].
  - rewrite stop_today_lookup, Hr. unfold stopped_record. simpl.
    eexists. split; [done|].
    destruct (is_running r); [apply total_seconds_stop_timing|done].
  - rewrite stop_today_lookup_ne by done. by exists r.
Qed.

Lemma records_grow_with_today_record (f : TimeRecord → TimeRecord) recs :
  (∀ r, (total_seconds r ≤ total_seconds (f r))%Z) →
  records_grow recs (with_today_record today f recs).
Proof.
  intros Hf d r Hr. destruct (decide (d = today)) as [->|Hd].
  - rewrite with_today_record_lookup, Hr. simpl. by eexists.
  - rewrite with_today_record_lookup_ne by done. by exists r.
Qed.

Lemma records_grow_touch_today recs :
  records_grow recs (touch_today today recs).
Proof.
  intros d r Hr. unfold touch_today, get_today_record.
  destruct (recs !! today) as [r0|] eqn:Htoday; simpl; [by exists r|].
  exists r. split; [|done].
  rewrite lookup_insert_ne; [done|]. by intros <-; simplify_eq.
Qed.

Lemma sub_activity_grows_refl sub : sub_activity_grows sub sub.
Proof. repeat split; try done. apply records_grow_refl. Qed.

Lemma project_grows_refl p : project_grows p p.
Proof.
  repeat split; try done; [apply records_grow_refl|].
  apply Forall_Forall2_diag, Forall_forall. intros sub _.
  apply sub_activity_grows_refl.
Qed.

Lemma sub_activity_grows_trans sub1 sub2 sub3 :
  sub_activity_grows sub1 sub2 → sub_activity_grows sub2 sub3 →
  sub_activity_grows sub1 sub3.
Proof.
  intros (? & ? & ?) (? & ? & ?).
  repeat split; [congruence..|by eapply records_grow_trans].
Qed.

Lemma project_grows_trans p1 p2 p3 :
  project_grows p1 p2 → project_grows p2 p3 → project_grows p1 p3.
Proof.
  intros (? & ? & ? & ? & H12) (? & ? & ? & ? & H23).
  repeat split; [congruence..|by eapply records_grow_trans|].
  eapply Forall2_trans; [|done..].
  intros sub1 sub2 sub3. apply sub_activity_grows_trans.
Qed.

Lemma project_grows_stop now p : project_grows p (stop_project today now p).
Proof.
  repeat split; try done; [apply records_grow_stop_today|].
  simpl. apply Forall2_fmap_r, Forall_Forall2_diag, Forall_forall.
  intros sub _. repeat split; try done. apply records_grow_stop_today.
Qed.

Lemma project_grows_start now sel p :
  project_grows p
    (start_selected_sub today now sel (start_project_today today now p)).
Proof.
  assert (records_grow (time_records p)
            (with_today_record today (start_timing now) (time_records p)))
    as Hrecs.
  { by apply records_grow_with_today_record. }
  unfold start_selected_sub. destruct (truthy sel); cycle 1.
  { repeat split; try done.
    apply Forall_Forall2_diag, Forall_forall. intros sub _.
    apply sub_activity_grows_refl. }
  simpl. destruct (sel ≫= _) as [[j ?]|]; cycle 1.
  { repeat split; try done.
    apply Forall_Forall2_diag, Forall_forall. intros sub _.
    apply sub_activity_grows_refl. }
  repeat split; try done. simpl.
  apply Forall2_alter_r.
  - apply Forall_Forall2_diag, Forall_forall. intros sub _.
    apply sub_activity_grows_refl.
  - intros sub sub' Hsub Hsub' _. rewrite Hsub in Hsub'.
    injection Hsub' as <-. repeat split; try done.
    by apply records_grow_with_today_record.
Qed.

Lemma project_grows_touch p :
  project_grows p
    (mkProject (name p) (dz_number p) (alias p)
       ((λ sub, set_sub_time_records
                  (touch_today today (sub_time_records sub)) sub)
          <$> sub_activities p)
       (touch_today today (time_records p))).
Proof.
  repeat split; try done; [apply records_grow_touch_today|].
  simpl. apply Forall2_fmap_r, Forall_Forall2_diag, Forall_forall.
  intros sub _. repeat split; try done. apply records_grow_touch_today.
Qed.

Lemma Forall2_project_grows_fmap (f : Project → Project)
    (l : list Project) :
  (∀ p, project_grows p (f p)) → Forall2 project_grows l (f <$> l).
Proof.
  intros Hf. apply Forall2_fmap_r, Forall_Forall2_diag, Forall_forall.
  intros p _. apply Hf.
Qed.
End grow.

(** X14. The timer operations lose nothing: after [stop_all_timers],
    [start_current_timer] or [update_running_timers] the projects and
    their sub-activities are the same, in the same order and under the
    same names and aliases, every record that was there is still under
    its date, and no banked total is smaller than it was.  The selection
    is not touched. *)
Theorem timer_operations_lose_nothing today now m :
  Forall2 project_grows (projects m) (projects (stop_all_timers today now m))
  ∧ Forall2 project_grows (projects m)
      (projects (start_current_timer today now m).1)
  ∧ Forall2 project_grows (projects m)
      (projects (update_running_timers today m))
  ∧ current_project_alias (start_current_timer today now m).1
    = current_project_alias m
  ∧ current_sub_activity_alias (start_current_timer today now m).1
    = current_sub_activity_alias m.
Proof.
  assert (Forall2 project_grows (projects m)
            (projects (stop_all_timers today now m))) as Hstop.
  { apply Forall2_project_grows_fmap. apply project_grows_stop. }
  split; [done|]. split; [|split].
  - unfold start_current_timer.
    destruct (current_project_index _) as [i|]; [|done]. simpl.
    apply Forall2_alter_r; [done|].
    intros p p' _ _ Hpp'. eapply project_grows_trans; [done|].
    apply project_grows_start.
  - apply Forall2_project_grows_fmap. apply project_grows_touch.
  - unfold start_current_timer.
    by destruct (current_project_index _) as [i|].
Qed.

(** ** What runs after the timer operations *)

Section running.
Context (today : string).
Implicit Types (recs : gmap string TimeRecord) (p : Project)
  (m : ProjectDataManager).

(** After [stop_today] the record of today is flagged as running
    exactly when it was so without a start. *)
Lemma running_at_stop_today now recs :
  running_at today (stop_today today now recs)
  = negb (consistent_at today recs).
Proof.
  unfold running_at, consistent_at. rewrite stop_today_lookup.
  unfold stopped_record, stop_timing.
  destruct (recs !! today) as [r|]; simpl; [|done].
  destruct (is_running r) eqn:Hr,
    (last_started r) as [start_time|] eqn:Hs; simpl; rewrite ?Hr; done.
Qed.

Lemma length_filter_fmap {A B} (f : A → B) (P : B → Prop)
    `{!∀ y, Decision (P y)} (l : list A) :
  length (filter P (f <$> l)) = length (filter (P ∘ f) l).
Proof.
  induction l as [|x l IH]; [done|]. csimpl.
  rewrite !filter_cons. simpl. by repeat case_decide; simpl; rewrite IH.
Qed.

Lemma length_filter_ext {A} (P Q : A → Prop) `{!∀ x, Decision (P x)}
    `{!∀ x, Decision (Q x)} (l : list A) :
  (∀ x, P x ↔ Q x) → length (filter P l) = length (filter Q l).
Proof. intros HPQ. by rewrite (list_filter_iff P Q). Qed.

Lemma filter_alter_exactly_one {A} (P : A → Prop) `{!∀ x, Decision (P x)}
    (f : A → A) (l : list A) : ∀ i x,
  Forall (λ y, ¬ P y) l → l !! i = Some x → P (f x) →
  length (filter P (alter f i l)) = 1.
Proof.
  induction l as [|y l IH]; intros [|i] x Hl Hi Hx; simplify_eq/=.
  - apply Forall_cons in Hl as [_ Hl].
    rewrite filter_cons_True by done. simpl.
    by rewrite (filter_none P l).
  - apply Forall_cons in Hl as [Hy Hl].
    rewrite filter_cons_False by done. by eapply IH.
Qed.

End running.

(** X15. After [stop_all_timers] the records of today that are still
    flagged as running are exactly those that were flagged so without a
    start time; when there is none, nothing runs today. *)
Theorem stop_all_timers_stops_today today now m :
  projects_running_at today (stop_all_timers today now m)
  = length (filter (λ p, consistent_at today (time_records p) = false)
                   (projects m))
  ∧ subs_running_at today (stop_all_timers today now m)
    = length (filter (λ sub, consistent_at today (sub_time_records sub)
                             = false)
                     (projects m ≫= sub_activities))
  ∧ (manager_consistent_at today m →
     projects_running_at today (stop_all_timers today now m) = 0
     ∧ subs_running_at today (stop_all_timers today now m) = 0).
Proof.
  split; [|split].
  - unfold projects_running_at. simpl. rewrite length_filter_fmap.
    apply length_filter_ext. intros p. simpl.
    rewrite running_at_stop_today. by destruct (consistent_at _ _).
  - unfold subs_running_at. simpl. rewrite list_fmap_bind.
    assert (projects m ≫= sub_activities ∘ stop_project today now
            = stop_sub_activity today now <$> (projects m ≫= sub_activities))
      as ->.
    { induction (projects m) as [|p ps IH]; [done|].
      rewrite !bind_cons, fmap_app, IH. done. }
    rewrite length_filter_fmap. apply length_filter_ext. intros sub. simpl.
    rewrite running_at_stop_today. by destruct (consistent_at _ _).
  - intros Hc. pose proof (stop_all_timers_quiet today now m Hc) as Hq.
    unfold projects_running_at, subs_running_at.
    rewrite !filter_none; [done|..].
    + apply Forall_bind. eapply Forall_impl; [exact Hq|].
      intros p [_ Hp]. eapply Forall_impl; [exact Hp|].
      intros sub Hsub. by rewrite Hsub.
    + eapply Forall_impl; [exact Hq|]. intros p [Hp _]. by rewrite Hp.
Qed.


(** X17. Switching projects as the widgets do it: [set_current_project]
    on an existing alias, [stop_all_timers], [start_current_timer].
    When no record of today was flagged as running without a start,
    exactly one project record of today runs afterwards, the one of the
    selected project, started at the last clock reading from what it
    held once stopped; no sub-activity record of today runs, and no
    sub-activity is selected. *)
Theorem switch_project_runs_selected today now1 now2 al m :
  manager_consistent_at today m →
  al ≠ "" →
  is_Some (get_project al m) →
  let m' := (start_current_timer today now2
               (stop_all_timers today now1 (set_current_project al m).1)).1 in
  projects_running_at today m' = 1
  ∧ subs_running_at today m' = 0
  ∧ current_project_alias m' = Some al
  ∧ current_sub_activity_alias m' = None
  ∧ ∃ i p p' r0,
      find_project al (projects m) = Some (i, p)
      ∧ projects m' !! i = Some p'
      ∧ stopped_record today now1 (time_records p !! today) = Some r0
      ∧ time_records p' !! today = Some (start_timing now2 r0).
Proof.
  intros Hc Hal [q Hq]. unfold set_current_project. rewrite Hq. simpl.
  set (m1 := set_selection (Some al) None m).
  assert (manager_consistent_at today m1) as Hc1 by done.
  pose proof (stop_all_timers_quiet today now1 m1 Hc1) as Hquiet.
  unfold get_project in Hq.
  destruct (find_project al (projects m)) as [[i p]|] eqn:Hfind; [|done].
  pose proof Hfind as (Hi & _)%list_find_Some.
  assert (current_project_index (stop_all_timers today now1 m1) = Some i)
    as Hindex.
  { rewrite current_project_index_stop. unfold current_project_index.
    simpl. rewrite nonempty_truthy by done. simpl. by rewrite Hfind. }
  unfold start_current_timer.
  rewrite stop_all_timers_again, Hindex. simpl.
  split; [|split; [|split; [done|split; [done|]]]].
  - unfold projects_running_at. simpl.
    apply (filter_alter_exactly_one _ _ _ i (stop_project today now1 p)).
    + eapply Forall_impl; [exact Hquiet|]. intros p' [Hp' _].
      by rewrite Hp'.
    + by rewrite list_lookup_fmap, Hi.
    + unfold running_at. simpl. by rewrite with_today_record_lookup.
  - unfold subs_running_at. simpl. apply length_zero_iff_nil.
    apply filter_none, Forall_bind, Forall_alter.
    + eapply Forall_impl; [exact Hquiet|]. intros p' [_ Hp'].
      eapply Forall_impl; [exact Hp'|]. intros sub Hsub. by rewrite Hsub.
    + intros p' Hp' _. simpl.
      apply (Forall_lookup_1 _ _ _ _ Hquiet) in Hp' as [_ Hp'].
      eapply Forall_impl; [exact Hp'|]. intros sub Hsub. by rewrite Hsub.
  - eexists i, p, _, _. split; [done|]. split; [|split; [reflexivity|]].
    + by rewrite list_lookup_alter_eq, list_lookup_fmap, Hi.
    + simpl. by rewrite with_today_record_lookup, stop_today_lookup.
Qed.

(** ** [update_running_timers] *)

Lemma touch_today_lookup today (recs : gmap string TimeRecord) d :
  touch_today today recs !! d
  = if decide (d = today) then fetched_record today (recs !! today)
    else recs !! d.
Proof.
  unfold touch_today, get_today_record, fetched_record.
  destruct (recs !! today) as [r|] eqn:Hr; simpl; case_decide; subst; try done.
  - by rewrite lookup_insert_eq.
  - by rewrite lookup_insert_ne.
Qed.

Lemma stop_today_touch_today today now (recs : gmap string TimeRecord) :
  stop_today today now (touch_today today recs) = stop_today today now recs.
Proof.
  unfold stop_today, touch_today, get_today_record.
  destruct (recs !! today) as [r|] eqn:Hr; simpl; [by rewrite Hr|].
  by rewrite lookup_insert_eq.
Qed.

(** X18. [update_running_timers] changes no record: it only leaves an
    empty record under today's date where a project or sub-activity had
    none.  Every other date is as it was, the selection is untouched,
    and [stop_all_timers] after it does what it does without it. *)
Theorem update_running_timers_only_fetches today m d :
  records_at d (update_running_timers today m)
  = (if decide (d = today) then fetched_records today <$> records_at d m
     else records_at d m)
  ∧ current_project_alias (update_running_timers today m)
    = current_project_alias m
  ∧ current_sub_activity_alias (update_running_timers today m)
    = current_sub_activity_alias m
  ∧ ∀ now, stop_all_timers today now (update_running_timers today m)
           = stop_all_timers today now m.
Proof.
  split; [|split; [done|split; [done|]]].
  - unfold records_at, update_running_timers. simpl.
    rewrite <-list_fmap_compose.
    case_decide as Hd; [subst d; rewrite <-list_fmap_compose|];
      apply list_fmap_ext; intros _ p _; simpl;
      rewrite touch_today_lookup; rewrite ?decide_True, ?decide_False by done;
      unfold fetched_records; simpl; f_equal;
      rewrite <-?list_fmap_compose; apply list_fmap_ext; intros _ sub _;
      simpl; rewrite touch_today_lookup;
      by rewrite ?decide_True, ?decide_False by done.
  - intros now. unfold stop_all_timers, update_running_timers, set_projects.
    simpl. f_equal. rewrite <-list_fmap_compose. apply list_fmap_ext.
    intros _ p _. unfold stop_project. simpl.
    rewrite stop_today_touch_today. f_equal.
    rewrite <-list_fmap_compose. apply list_fmap_ext. intros _ sub _.
    unfold stop_sub_activity. simpl. by rewrite stop_today_touch_today.
Qed.

(** ** Saving and loading back *)

Section round_trip.
Implicit Types (recs : gmap string TimeRecord) (r : TimeRecord)
  (sub : SubActivity) (p : Project).

Lemma mapM_fmap_Value {A B} (f : A → B) (g : B → outcome A) (l : list A) :
  Forall (λ x, g (f x) = Value x) l → mapM g (f <$> l) = Value l.
Proof.
  induction 1 as [|x l Hx _ IH]; [done|].
  change (mapM g (f <$> x :: l))
    with (y ← g (f x); k ← mapM g (f <$> l); mret (y :: k)).
  by rewrite Hx, IH.
Qed.

Lemma list_to_map_reverse_to_list {A} (mp : gmap string A) :
  list_to_map (reverse (map_to_list mp)) = mp.
Proof.
  rewrite <-(list_to_map_to_list mp) at 2.
  apply list_to_map_proper; [|apply reverse_Permutation].
  rewrite fmap_reverse, reverse_Permutation. apply NoDup_fst_map_to_list.
Qed.

Lemma as_int_dict_to_dict (sas : gmap string Z) :
  as_int_dict (JDict (prod_map id JInt <$> map_to_list sas)) = Value sas.
Proof.
  unfold as_int_dict.
  rewrite (mapM_fmap_Value (prod_map id JInt)).
  - simpl. by rewrite list_to_map_reverse_to_list.
  - apply Forall_forall. by intros [k n] _.
Qed.

Lemma TimeRecord_init_to_dict d r :
  match record_to_dict r with
  | JDict record_data => TimeRecord_init d record_data
  | _ => IllTyped
  end
  = Value (mkTimeRecord d (total_seconds r) (last_started r)
             (is_running r) (sub_activity_seconds r)).
Proof.
  unfold record_to_dict, TimeRecord_init.
  assert (∀ v1 v2 v3 v4 v5,
    check_keywords TimeRecord_fields []
      [("date", v1); ("total_seconds", v2); ("last_started", v3);
       ("is_running", v4); ("sub_activity_seconds", v5)] = Value ())
    as -> by reflexivity.
  cbn [mbind outcome_bind dict_get String.eqb Ascii.eqb Bool.eqb
       from_option as_int as_bool].
  rewrite as_int_dict_to_dict.
  by destruct (last_started r).
Qed.

Lemma convert_time_records_list (l : list (string * TimeRecord)) :
  Forall (λ dr, date dr.2 = dr.1) l →
  convert_time_records (JDict (prod_map id record_to_dict <$> l))
  = Value (list_to_map (reverse l)).
Proof.
  intros Hl.
  assert (mapM (λ kv : string * json,
                  match kv.2 with
                  | JDict record_data =>
                      r ← TimeRecord_init kv.1 record_data; Value (kv.1, r)
                  | _ => IllTyped
                  end) (prod_map id record_to_dict <$> l) = Value l)
    as HmapM.
  { apply mapM_fmap_Value. eapply Forall_impl; [exact Hl|].
    intros [d r] Hdr. simpl in Hdr.
    pose proof (TimeRecord_init_to_dict d r) as Hinit.
    unfold record_to_dict in Hinit. simpl in *. rewrite Hinit. simpl.
    destruct r. simpl in *. by subst. }
  destruct l as [|[d0 r0] l]; [done|].
  unfold convert_time_records.
  change (prod_map id record_to_dict <$> (d0, r0) :: l)
    with ((d0, record_to_dict r0) :: (prod_map id record_to_dict <$> l))
    in *.
  cbn [is_dict record_to_dict]. cbn [record_to_dict] in HmapM.
  by rewrite HmapM.
Qed.

Lemma convert_time_records_to_dict recs :
  records_dated recs →
  convert_time_records (records_to_dict recs) = Value recs.
Proof.
  intros Hdated. unfold records_to_dict.
  rewrite convert_time_records_list.
  - by rewrite list_to_map_reverse_to_list.
  - apply Forall_forall. intros [d r] Hdr%elem_of_map_to_list.
    by apply Hdated.
Qed.

Lemma SubActivity_init_to_dict sub :
  records_dated (sub_time_records sub) →
  SubActivity_init
    (JDict [("name", JStr (sub_name sub)); ("alias", JStr (sub_alias sub));
            ("time_records", records_to_dict (sub_time_records sub))])
  = Value sub.
Proof.
  intros Hdated. unfold SubActivity_init.
  assert (∀ v1 v2 v3,
    check_keywords ["name"; "alias"; "time_records"]
      ["name"; "alias"; "time_records"]
      [("name", v1); ("alias", v2); ("time_records", v3)] = Value ())
    as -> by reflexivity.
  cbn [mbind outcome_bind dict_get String.eqb Ascii.eqb Bool.eqb
       from_option as_str].
  rewrite convert_time_records_to_dict by done. by destruct sub.
Qed.

Lemma convert_sub_activities_to_dict (subs : list SubActivity) :
  Forall (λ sub, records_dated (sub_time_records sub)) subs →
  convert_sub_activities
    (JList ((λ sub,
               JDict [("name", JStr (sub_name sub));
                      ("alias", JStr (sub_alias sub));
                      ("time_records",
                       records_to_dict (sub_time_records sub))])
              <$> subs))
  = Value subs.
Proof.
  intros Hsubs.
  pose proof (mapM_fmap_Value _ SubActivity_init subs
                (Forall_impl _ _ _ Hsubs SubActivity_init_to_dict))
    as HmapM.
  destruct subs as [|sub subs]; [done|]. exact HmapM.
Qed.

Lemma Project_init_to_dict p :
  project_dated p → Project_init (_project_to_dict p) = Value p.
Proof.
  intros [Hrecs Hsubs]. unfold Project_init, _project_to_dict.
  assert (∀ v1 v2 v3 v4 v5,
    check_keywords
      ["name"; "dz_number"; "alias"; "sub_activities"; "time_records"]
      ["name"; "dz_number"; "alias"; "sub_activities"; "time_records"]
      [("name", v1); ("dz_number", v2); ("alias", v3);
       ("sub_activities", v4); ("time_records", v5)] = Value ())
    as -> by reflexivity.
  cbn [mbind outcome_bind dict_get String.eqb Ascii.eqb Bool.eqb
       from_option as_str].
  rewrite convert_time_records_to_dict by done.
  cbn [mbind outcome_bind].
  rewrite convert_sub_activities_to_dict by done. by destruct p.
Qed.

Lemma load_projects_saved_document now env m m0 :
  Forall project_dated (projects m) →
  load_projects (Parsed (saved_document now env m)) m0
  = (set_selection (current_project_alias m) (current_sub_activity_alias m)
       (set_projects (projects m) m0),
     Value true).
Proof.
  intros Hdated. unfold load_projects, saved_document.
  cbn [mbind outcome_bind dict_get String.eqb Ascii.eqb Bool.eqb
       from_option load_project_list].
  rewrite (mapM_fmap_Value _ Project_init (projects m))
    by (eapply Forall_impl; [exact Hdated|]; apply Project_init_to_dict).
  cbn [mbind outcome_bind].
  by destruct (current_project_alias m), (current_sub_activity_alias m).
Qed.
End round_trip.

(** X19. Round trip through the data file: the document [save_projects]
    writes for a manager, each of whose records sits under its own date,
    is loaded back by [load_projects], into any manager, as the same
    projects, sub-activities and records and the same selection; so a
    forced save that succeeds followed by a load restores the graph. *)
Theorem load_projects_after_save stem c m fs m0 :
  Forall project_dated (projects m) →
  load_projects (Parsed (saved_document (now c) (environment c) m)) m0
  = (set_selection (current_project_alias m) (current_sub_activity_alias m)
       (set_projects (projects m) m0),
     Value true)
  ∧ (force c = true → write c = Written →
     (save_projects stem c m fs).2 = true
     ∧ projects (load_projects
                   (data_file (save_projects stem c m fs).1.2) m0).1
       = projects m
     ∧ current_project_alias
         (load_projects (data_file (save_projects stem c m fs).1.2) m0).1
       = current_project_alias m
     ∧ current_sub_activity_alias
         (load_projects (data_file (save_projects stem c m fs).1.2) m0).1
       = current_sub_activity_alias m).
Proof.
  intros Hdated.
  pose proof (load_projects_saved_document (now c) (environment c) m m0 Hdated)
    as Hload.
  split; [done|]. intros Hforce Hwrite.
  unfold save_projects. rewrite Hforce, Hwrite. simpl negb. simpl andb.
  cbn [fst snd data_file]. by rewrite Hload.
Qed.

(** ** Records sit under their own date *)

Section dated.
Implicit Types (recs : gmap string TimeRecord) (r : TimeRecord)
  (sub : SubActivity) (p : Project) (m : ProjectDataManager).

Lemma outcome_bind_Value {A B} (o : outcome A) (k : A → outcome B) y :
  o ≫= k = Value y → ∃ a, o = Value a ∧ k a = Value y.
Proof. destruct o as [a| |e]; [|done..]. intros Hk. by exists a. Qed.

Lemma mapM_Value_Forall2 {A B} (g : A → outcome B) (l : list A) : ∀ l',
  mapM g l = Value l' → Forall2 (λ x y, g x = Value y) l l'.
Proof.
  induction l as [|x l IH]; intros l'.
  - intros [= <-]. constructor.
  - change (mapM g (x :: l)) with (y ← g x; k ← mapM g l; mret (y :: k)).
    intros (y & Hy & (k & Hk & [= <-])%outcome_bind_Value)%outcome_bind_Value.
    constructor; [done|]. by apply IH.
Qed.

Lemma records_dated_empty : records_dated ∅.
Proof. intros d r Hr. by rewrite lookup_empty in Hr. Qed.

Lemma records_dated_insert today r recs :
  date r = today → records_dated recs →
  records_dated (<[today:=r]> recs).
Proof.
  intros Hr Hrecs d r'. destruct (decide (d = today)) as [->|Hd].
  - rewrite lookup_insert_eq. by intros [= <-].
  - rewrite lookup_insert_ne by done. apply Hrecs.
Qed.

Lemma date_stop_timing now r : date (stop_timing now r) = date r.
Proof.
  unfold stop_timing. by destruct (is_running r), (last_started r).
Qed.

Lemma get_today_record_dated today recs :
  records_dated recs →
  records_dated (get_today_record today recs).1
  ∧ date (get_today_record today recs).2 = today.
Proof.
  intros Hrecs. unfold get_today_record.
  destruct (recs !! today) as [r|] eqn:Hr; simpl.
  - split; [done|]. by apply Hrecs.
  - split; [|done]. by apply records_dated_insert.
Qed.

Lemma records_dated_stop_today today now recs :
  records_dated recs → records_dated (stop_today today now recs).
Proof.
  intros Hrecs. unfold stop_today.
  destruct (get_today_record_dated today recs Hrecs) as [Hdated Hdate].
  destruct (get_today_record today recs) as [recs' r]. simpl in *.
  destruct (is_running r); [|done].
  apply records_dated_insert; [|done]. by rewrite date_stop_timing.
Qed.

Lemma records_dated_with_today_record today f recs :
  (∀ r, date (f r) = date r) →
  records_dated recs → records_dated (with_today_record today f recs).
Proof.
  intros Hf Hrecs. unfold with_today_record.
  destruct (get_today_record_dated today recs Hrecs) as [Hdated Hdate].
  destruct (get_today_record today recs) as [recs' r]. simpl in *.
  apply records_dated_insert; [|done]. by rewrite Hf.
Qed.

Lemma records_dated_touch_today today recs :
  records_dated recs → records_dated (touch_today today recs).
Proof. intros Hrecs. by apply get_today_record_dated. Qed.

Lemma project_dated_stop today now p :
  project_dated p → project_dated (stop_project today now p).
Proof.
  intros [Hrecs Hsubs]. split; simpl.
  - by apply records_dated_stop_today.
  - apply Forall_fmap. eapply Forall_impl; [exact Hsubs|].
    intros sub Hsub. simpl. by apply records_dated_stop_today.
Qed.

Lemma project_dated_start today now sel p :
  project_dated p →
  project_dated
    (start_selected_sub today now sel (start_project_today today now p)).
Proof.
  intros [Hrecs Hsubs].
  assert (records_dated
            (with_today_record today (start_timing now) (time_records p)))
    as Hstarted by (by apply records_dated_with_today_record).
  unfold start_selected_sub. destruct (truthy sel); [|done].
  simpl. destruct (sel ≫= _) as [[j ?]|]; [|done].
  split; [done|]. simpl. apply Forall_alter; [done|].
  intros sub _ Hsub. simpl. by apply records_dated_with_today_record.
Qed.

Lemma project_dated_touch today p :
  project_dated p →
  project_dated
    (mkProject (name p) (dz_number p) (alias p)
       ((λ sub, set_sub_time_records
                  (touch_today today (sub_time_records sub)) sub)
          <$> sub_activities p)
       (touch_today today (time_records p))).
Proof.
  intros [Hrecs Hsubs]. split; simpl.
  - by apply records_dated_touch_today.
  - apply Forall_fmap. eapply Forall_impl; [exact Hsubs|].
    intros sub Hsub. simpl. by apply records_dated_touch_today.
Qed.

Lemma TimeRecord_init_date d kvs r :
  TimeRecord_init d kvs = Value r → date r = d.
Proof.
  unfold TimeRecord_init.
  intros (? & _ & (? & _ & (? & _ & (? & _ & (? & _ & [= <-])
    %outcome_bind_Value)%outcome_bind_Value)%outcome_bind_Value)
    %outcome_bind_Value)%outcome_bind_Value.
  done.
Qed.

Lemma convert_time_records_dated v recs :
  convert_time_records v = Value recs → records_dated recs.
Proof.
  unfold convert_time_records.
  destruct v as [| | | | | |[|[d0 first] kvs]];
    try (by destruct (json_truthy _)).
  { intros [= <-]. apply records_dated_empty. }
  destruct (is_dict first); [|done].
  intros (l & Hl%mapM_Value_Forall2 & [= <-])%outcome_bind_Value.
  intros d r Hdr%elem_of_list_to_map_2. rewrite elem_of_reverse in Hdr.
  apply list_elem_of_lookup in Hdr as [i Hi].
  destruct (Forall2_lookup_r _ _ _ _ _ Hl Hi) as ([d' v] & _ & Hinit).
  simpl in Hinit. destruct v; try done.
  apply outcome_bind_Value in Hinit as (r' & Hr' & [= <- <-]).
  by eapply TimeRecord_init_date.
Qed.

Lemma SubActivity_init_dated v sub :
  SubActivity_init v = Value sub → records_dated (sub_time_records sub).
Proof.
  unfold SubActivity_init. destruct v; try done.
  intros (? & _ & (recs & Hrecs & (? & _ & (? & _ & [= <-])
    %outcome_bind_Value)%outcome_bind_Value)%outcome_bind_Value)
    %outcome_bind_Value.
  simpl. destruct (dict_get "time_records" kvs); [|done].
  by eapply convert_time_records_dated.
Qed.

Lemma convert_sub_activities_dated v subs :
  convert_sub_activities v = Value subs →
  Forall (λ sub, records_dated (sub_time_records sub)) subs.
Proof.
  unfold convert_sub_activities.
  destruct v as [|[]|n| | |[|first l]|[|]]; try done.
  { by destruct (n =? 0)%Z. }
  { intros [= <-]. constructor. }
  destruct (is_dict first); [|done].
  intros Hl%mapM_Value_Forall2. apply Forall_lookup. intros i sub Hi.
  destruct (Forall2_lookup_r _ _ _ _ _ Hl Hi) as (v & _ & Hinit).
  by eapply SubActivity_init_dated.
Qed.

Lemma Project_init_dated v p : Project_init v = Value p → project_dated p.
Proof.
  unfold Project_init. destruct v; try done.
  intros (? & _ & (recs & Hrecs & (subs & Hsubs & (? & _ & (? & _ &
    (? & _ & [= <-])%outcome_bind_Value)%outcome_bind_Value)
    %outcome_bind_Value)%outcome_bind_Value)%outcome_bind_Value)
    %outcome_bind_Value.
  split; simpl.
  - destruct (dict_get "time_records" kvs); [|done].
    by eapply convert_time_records_dated.
  - destruct (dict_get "sub_activities" kvs); [|done].
    by eapply convert_sub_activities_dated.
Qed.

Lemma load_project_list_dated v ps :
  load_project_list v = Value ps → Forall project_dated ps.
Proof.
  unfold load_project_list.
  destruct v as [| | |s| |l|[|]]; try done.
  - destruct (String.eqb s ""); [|done]. intros [= <-]. constructor.
  - intros Hl%mapM_Value_Forall2. apply Forall_lookup. intros i p Hi.
    destruct (Forall2_lookup_r _ _ _ _ _ Hl Hi) as (v & _ & Hinit).
    by eapply Project_init_dated.
  - intros [= <-]. constructor.
Qed.
End dated.

(** X20. In every record the manager holds, [date] is the key the record
    is stored under: this is so for what [load_projects] reads from any
    document (the key overrides a [date] the document gives), and it is
    kept by [add_project], [remove_project], [set_current_sub_activity],
    [stop_all_timers], [start_current_timer] and
    [update_running_timers]. *)
Theorem records_stay_dated m :
  Forall project_dated (projects m) →
  (∀ file, Forall project_dated (projects (load_projects file m).1))
  ∧ (∀ nm dz al b, Forall project_dated (projects (add_project nm dz al b m).1))
  ∧ (∀ al, Forall project_dated (projects (remove_project al m).1))
  ∧ (∀ o, Forall project_dated (projects (set_current_sub_activity o m).1))
  ∧ (∀ today now, Forall project_dated (projects (stop_all_timers today now m)))
  ∧ (∀ today now,
       Forall project_dated (projects (start_current_timer today now m).1))
  ∧ (∀ today, Forall project_dated (projects (update_running_timers today m))).
Proof.
  intros Hm.
  assert (∀ today now,
    Forall project_dated (projects (stop_all_timers today now m))) as Hstop.
  { intros today now. simpl. apply Forall_fmap.
    eapply Forall_impl; [exact Hm|]. intros p Hp.
    by apply project_dated_stop. }
  split; [|split; [|split; [|split; [|split; [done|split]]]]].
  - intros [| |data]; [done..|].
    destruct data as [| | | | | |data]; try done. simpl.
    destruct (from_option load_project_list _ _ ≫= _) as [m'| |e] eqn:Hload;
      [|done|by destruct (caught_by_load e)].
    apply outcome_bind_Value in Hload as (ps & Hps & (cp & _ & (cs & _ &
      [= <-])%outcome_bind_Value)%outcome_bind_Value).
    simpl. destruct (dict_get "projects" data) as [v|]; simpl in Hps.
    + by eapply load_project_list_dated.
    + by injection Hps as <-.
  - intros nm dz al b. unfold add_project.
    destruct (get_project _ m); [done|]. simpl.
    apply Forall_app. split; [done|]. apply Forall_singleton.
    destruct b; split; simpl; try apply records_dated_empty;
      repeat constructor; apply records_dated_empty.
  - intros al. unfold remove_project.
    destruct (find_project al (projects m)) as [[i q]|]; [|done].
    case_bool_decide; simpl; by apply Forall_delete.
  - intros [a|]; [|done]. unfold set_current_sub_activity.
    destruct (current_project_index m) as [i|]; [|done].
    destruct (projects m !! i) as [p|] eqn:Hp; [|done].
    destruct (get_sub_activity a p); [done|].
    case_bool_decide; [|done]. simpl.
    apply Forall_insert; [done|].
    destruct (Forall_lookup_1 _ _ _ _ Hm Hp) as [Hrecs Hsubs].
    split; [done|]. simpl. apply Forall_app. split; [done|].
    apply Forall_singleton. apply records_dated_empty.
  - intros today now. unfold start_current_timer.
    destruct (current_project_index _) as [i|]; [|by apply Hstop]. simpl.
    apply Forall_alter; [by apply Hstop|].
    intros p _ Hp. by apply project_dated_start.
  - intros today. simpl. apply Forall_fmap.
    eapply Forall_impl; [exact Hm|]. intros p Hp.
    by apply project_dated_touch.
Qed.

(** ** What a save changes *)



(** X21. [save_projects] never changes the projects, the selection or
    the interval of the manager.  A call that returns false leaves the
    manager exactly as it was, and the data file too unless the write
    broke off after the file was opened; a call that returns true has
    written the document of the manager and set the last save time to
    its clock reading.  A forced call returns true exactly when the
    write succeeds, whatever the time since the last save.  Without
    backups enabled, or without a data file to back up, the backup
    directory is not touched. *)
Theorem save_projects_effect stem c m fs :
  projects (save_projects stem c m fs).1.1 = projects m
  ∧ current_project_alias (save_projects stem c m fs).1.1
    = current_project_alias m
  ∧ current_sub_activity_alias (save_projects stem c m fs).1.1
    = current_sub_activity_alias m
  ∧ auto_save_interval (save_projects stem c m fs).1.1 = auto_save_interval m
  ∧ ((save_projects stem c m fs).2 = false →
     (save_projects stem c m fs).1.1 = m
     ∧ (write c ≠ WriteBrokenOff →
        data_file (save_projects stem c m fs).1.2 = data_file fs))
  ∧ ((save_projects stem c m fs).2 = true →
     data_file (save_projects stem c m fs).1.2
     = Parsed (saved_document (now c) (environment c) m)
     ∧ last_save_time (save_projects stem c m fs).1.1 = now c)
  ∧ (force c = true →
     ((save_projects stem c m fs).2 = true ↔ write c = Written))
  ∧ (is_backup_enabled (config m) = false ∨ data_file_exists fs = false →
     backup_dir (save_projects stem c m fs).1.2 = backup_dir fs).
Proof.
  unfold save_projects.
  destruct (negb (force c) && _) eqn:Hskip.
  { simpl. split_and!; try done.
    intros Hforce. rewrite Hforce in Hskip. done. }
  assert ((is_backup_enabled (config m) = false ∨ data_file_exists fs = false) →
          (if is_backup_enabled (config m) && data_file_exists fs
           then _create_backup stem c (config m) (backup_dir fs)
           else backup_dir fs) = backup_dir fs) as Hdir.
  { by intros [-> | ->]; rewrite ?andb_false_r. }
  destruct (write c); simpl; split_and!; try done; by intros _; split.
Qed.

(** X22. The first unforced save of a manager is never held back: for a
    manager constructed at a clock reading, a call at any reading not
    more than a second before it passes the interval test, whatever the
    interval, and returns true when the write succeeds. *)
Theorem first_save_is_due stem now0 cfg c fs :
  (now0 - 1000000 ≤ now c)%Z →
  write c = Written →
  (save_projects stem c (init_manager now0 cfg) fs).2 = true
  ∧ writes (save_projects stem c (init_manager now0 cfg) fs).1.2
    = S (writes fs).
Proof.
  intros Hnow Hwrite. unfold save_projects. simpl.
  destruct (Z.ltb_spec
              (now c - (now0 - (get_auto_save_interval cfg + 1) * 1000000))
              (get_auto_save_interval cfg * 1000000)) as [Hlt|_]; [lia|].
  rewrite andb_false_r, Hwrite. done.
Qed.

(** ** What the clean-up removes *)



(** ** What a load changes *)


(** ** Toggling a sub-activity *)

Lemma fmap_alter_absorb {A B} (f : A → B) (g : A → A) (l : list A) : ∀ i,
  (∀ x, l !! i = Some x → f (g x) = f x) → f <$> alter g i l = f <$> l.
Proof.
  induction l as [|y l IH]; intros [|i] Hg; csimpl; try done.
  - by rewrite (Hg y).
  - by rewrite IH.
Qed.

Lemma filter_bind_alter_exactly_one {A B} (P : A → Prop)
    `{!∀ x, Decision (P x)} (sub : B → list A) (g : B → B) (l : list B) :
  ∀ i y,
    Forall (λ y, Forall (λ x, ¬ P x) (sub y)) l →
    l !! i = Some y →
    length (filter P (sub (g y))) = 1 →
    length (filter P (alter g i l ≫= sub)) = 1.
Proof.
  induction l as [|z l IH]; intros [|i] y Hl Hi Hy; simplify_eq/=.
  - apply Forall_cons in Hl as [_ Hl].
    rewrite filter_app, length_app, Hy.
    rewrite (filter_none P (l ≫= sub)); [done|]. by apply Forall_bind.
  - apply Forall_cons in Hl as [Hz Hl].
    rewrite filter_app, length_app, (filter_none P (sub z) Hz). simpl.
    by eapply IH.
Qed.

Lemma stop_all_timers_fetched_sub today now m i j recs :
  (∀ p sub, projects m !! i = Some p → sub_activities p !! j = Some sub →
            recs = touch_today today (sub_time_records sub)) →
  stop_all_timers today now
    (set_projects
       (alter (λ p, set_sub_activities
                      (alter (set_sub_time_records recs) j
                             (sub_activities p)) p)
              i (projects m)) m)
  = stop_all_timers today now m.
Proof.
  intros Hrecs. unfold stop_all_timers, set_projects. simpl. f_equal.
  apply fmap_alter_absorb. intros p Hp. unfold stop_project. simpl. f_equal.
  apply fmap_alter_absorb. intros sub Hsub.
  rewrite (Hrecs p sub Hp Hsub). unfold stop_sub_activity. simpl.
  by rewrite stop_today_touch_today.
Qed.

(** X25. Toggling a sub-activity of the current project as the widget
    does it.  When no record of today was flagged as running without a
    start, exactly one project record of today runs afterwards, the
    current project stays current, and: if the sub-activity was running
    it is deselected and no sub-activity record of today runs; if it was
    not, it is selected and exactly one sub-activity record of today
    runs, its own, started at the last clock reading. *)
Theorem toggle_sub_activity_runs_one today now1 now2 al m i p j sub :
  manager_consistent_at today m →
  al ≠ "" →
  current_project_index m = Some i →
  projects m !! i = Some p →
  find_sub_activity al (sub_activities p) = Some (j, sub) →
  let m' := toggle_sub_activity today now1 now2 al m in
  projects_running_at today m' = 1
  ∧ current_project_alias m' = current_project_alias m
  ∧ if running_at today (sub_time_records sub)
    then subs_running_at today m' = 0
         ∧ current_sub_activity_alias m' = None
    else subs_running_at today m' = 1
         ∧ current_sub_activity_alias m' = Some al
         ∧ ∃ p' sub' r0,
             projects m' !! i = Some p'
             ∧ sub_activities p' !! j = Some sub'
             ∧ stopped_record today now1 (sub_time_records sub !! today)
               = Some r0
             ∧ sub_time_records sub' !! today = Some (start_timing now2 r0).
Proof.
  intros Hc Hal Hi Hp Hfind. unfold toggle_sub_activity.
  rewrite Hi, Hp, Hfind.
  pose proof Hfind as (Hj & _)%list_find_Some.
  assert (is_running_today today (sub_time_records sub)
          = (touch_today today (sub_time_records sub),
             running_at today (sub_time_records sub))) as ->.
  { unfold is_running_today, touch_today, running_at, get_today_record.
    by destruct (sub_time_records sub !! today). }
  cbv zeta.
  rewrite stop_all_timers_fetched_sub; cycle 1.
  { intros p0 sub0 Hp0 Hsub0. by simplify_eq. }
  set (m1 := stop_all_timers today now1 m).
  pose proof (stop_all_timers_quiet today now1 m Hc) as Hquiet.
  fold m1 in Hquiet.
  assert (current_project_index m1 = Some i) as Hi1.
  { unfold m1. by rewrite current_project_index_stop. }
  assert (projects m1 !! i = Some (stop_project today now1 p)) as Hp1.
  { unfold m1. simpl. by rewrite list_lookup_fmap, Hp. }
  assert (find_sub_activity al (sub_activities (stop_project today now1 p))
          = Some (j, stop_sub_activity today now1 sub)) as Hfind1.
  { simpl. by rewrite find_sub_activity_stop, Hfind. }
  set (sel := if running_at today (sub_time_records sub)
              then None else Some al).
  assert ((set_current_sub_activity sel m1).1
          = set_selection (current_project_alias m) sel m1) as ->.
  { unfold sel. destruct (running_at _ _); [done|].
    unfold set_current_sub_activity. rewrite Hi1, Hp1.
    unfold get_sub_activity. by rewrite Hfind1. }
  set (m2 := set_selection (current_project_alias m) sel m1).
  assert (stop_all_timers today now2 m2 = m2) as Hagain.
  { unfold m2, stop_all_timers, set_projects, set_selection. simpl. f_equal.
    exact (f_equal projects (stop_all_timers_again today now1 now2 m)). }
  assert (current_project_index m2 = Some i) as Hi2 by exact Hi1.
  unfold start_current_timer. rewrite Hagain, Hi2.
  unfold m2, set_selection, set_projects, fst, projects,
    current_project_alias, current_sub_activity_alias.
  fold (projects m1).
  assert (Forall (λ p, ¬ running_at today (time_records p) = true)
                 (projects m1)) as Hps.
  { eapply Forall_impl; [exact Hquiet|]. intros p' [Hp' _]. by rewrite Hp'. }
  assert (Forall (λ p, Forall (λ sub, ¬ running_at today
                                        (sub_time_records sub) = true)
                               (sub_activities p))
                 (projects m1)) as Hsubs.
  { eapply Forall_impl; [exact Hquiet|]. intros p' [_ Hp'].
    eapply Forall_impl; [exact Hp'|]. intros sub' Hsub'. by rewrite Hsub'. }
  split; [|split; [done|]].
  - unfold projects_running_at. simpl.
    apply (filter_alter_exactly_one _ _ _ i (stop_project today now1 p));
      [done|done|].
    cbv beta. rewrite time_records_start_selected_sub.
    unfold running_at. simpl.
    by rewrite with_today_record_lookup.
  - unfold sel. destruct (running_at today (sub_time_records sub)).
    + split; [|done]. unfold subs_running_at. simpl.
      apply length_zero_iff_nil, filter_none, Forall_bind, Forall_alter.
      * done.
      * intros p' Hp' _. simpl.
        by apply (Forall_lookup_1 _ _ _ _ Hsubs) in Hp'.
    + split; [|split; [done|]].
      * unfold subs_running_at. simpl.
        apply (filter_bind_alter_exactly_one _ _ _ _ i
                 (stop_project today now1 p)); [done|done|].
        unfold start_selected_sub. rewrite truthy_Some by done.
        simpl. rewrite find_sub_activity_stop, Hfind. simpl.
        apply (filter_alter_exactly_one _ _ _ j
                 (stop_sub_activity today now1 sub)).
        -- by apply (Forall_lookup_1 _ _ _ _ Hsubs) in Hp1.
        -- by rewrite list_lookup_fmap, Hj.
        -- unfold running_at. simpl. by rewrite with_today_record_lookup.
      * eexists _, _, _. split; [|split; [|split; [reflexivity|]]].
        -- by rewrite list_lookup_alter_eq, Hp1.
        -- unfold start_selected_sub. rewrite truthy_Some by done.
           simpl. rewrite find_sub_activity_stop, Hfind. simpl.
           by rewrite list_lookup_alter_eq, list_lookup_fmap, Hj.
        -- simpl. by rewrite with_today_record_lookup, stop_today_lookup.
Qed.

(** ** Switching environments *)

Section switch_environment.
Variable get_data_file : Environment → string.
Variable path_stem : string → string.

Lemma switch_environment_session env c s st :
  data_file_path (switch_environment get_data_file path_stem env c s st).1.1
  = get_data_file env
  ∧ get_environment
      (switch_environment get_data_file path_stem env c s st).1.1
    = env.
Proof.
  unfold switch_environment. cbv zeta.
  destruct (load_projects _ _).2 as [[|]| |[| | |]]; try done.
  by destruct (file_at _ _).
Qed.

Lemma file_at_store_ne path path' fs st :
  path' ≠ path → file_at (store_files path fs st) path' = file_at st path'.
Proof. intros Hne. simpl. by rewrite decide_False. Qed.

Lemma file_at_store path fs st :
  file_at (store_files path fs st) path = data_file fs.
Proof. simpl. by rewrite decide_True. Qed.
End switch_environment.


(** X27. Switching to another environment and back.  When the forced
    save of the first switch writes the data file, every record of the
    manager sits under its own date, and the two environments have
    different data files, the switch back returns true and restores the
    projects and the selection the manager had, whatever the data file
    of the other environment held and whatever the first switch
    returned or raised. *)
Theorem switch_environment_and_back get_data_file path_stem env c1 c2 s st :
  let r1 := switch_environment get_data_file path_stem env c1 s st in
  let r2 := switch_environment get_data_file path_stem (get_environment s) c2
              r1.1.1 r1.1.2 in
  get_data_file (get_environment s) = data_file_path s →
  get_data_file env ≠ data_file_path s →
  write c1 = Written →
  Forall project_dated (projects (manager s)) →
  r2.2 = Value true
  ∧ projects (manager r2.1.1) = projects (manager s)
  ∧ current_project_alias (manager r2.1.1) = current_project_alias (manager s)
  ∧ current_sub_activity_alias (manager r2.1.1)
    = current_sub_activity_alias (manager s)
  ∧ data_file_path r2.1.1 = data_file_path s
  ∧ get_environment r2.1.1 = get_environment s.
Proof.
  intros r1 r2 Hpath Hne Hwrite Hdated.
  destruct (switch_environment_session get_data_file path_stem env c1 s st)
    as [Hpath1 Henv1]. fold r1 in Hpath1, Henv1.
  assert (file_at r1.1.2 (data_file_path s)
          = Parsed (saved_document (now c1)
                      (Environment_value (get_environment s)) (manager s)))
    as Hfile.
  { assert (r1.1.2
            = store_files (data_file_path s)
                (save_projects (path_stem (data_file_path s))
                   (mkSaveCall true (now c1) (stamp c1)
                      (Environment_value (get_environment s))
                      (copy_succeeds c1) (unlink_failure c1) (write c1))
                   (manager s) (files_of (data_file_path s) st)).1.2 st)
      as ->.
    { unfold r1, switch_environment. cbv zeta.
      destruct (load_projects _ _).2 as [[|]| |[| | |]]; try done.
      by destruct (file_at _ _). }
    rewrite file_at_store. unfold save_projects. simpl. by rewrite Hwrite. }
  unfold r2, switch_environment. cbv zeta.
  rewrite Hpath, Hpath1, file_at_store_ne, Hfile by done.
  rewrite load_projects_saved_document by done.
  done.
Qed.

(** ** The display of a total *)

Local Open Scope Z_scope.

Lemma read_format_02d n : read_int (format_02d n) = Some n.
Proof.
  unfold format_02d, read_int. case_decide as Hn.
  - assert (n = 0 ∨ n = 1 ∨ n = 2 ∨ n = 3 ∨ n = 4 ∨ n = 5 ∨ n = 6 ∨ n = 7
            ∨ n = 8 ∨ n = 9) as Hcases by lia.
    by repeat destruct Hcases as [-> | Hcases]; [..|subst].
  - rewrite NilZero.isi.
    + simpl. by rewrite DecimalZ.of_to.
    + destruct n; simpl; [done| |done].
      intros [= Hu]. by apply (DecimalPos.Unsigned.to_uint_nonnil p).
    + destruct n; simpl; [done|done|].
      intros [= Hu]. by apply (DecimalPos.Unsigned.to_uint_nonnil p).
Qed.

Lemma format_02d_inj n n' : format_02d n = format_02d n' → n = n'.
Proof.
  intros Heq. apply (f_equal read_int) in Heq.
  rewrite !read_format_02d in Heq. by injection Heq.
Qed.

Lemma format_02d_length n :
  0 ≤ n < 100 → String.length (format_02d n) = 2%nat.
Proof.
  intros Hn.
  assert (forallb (λ k, Nat.eqb (String.length (format_02d (Z.of_nat k))) 2)
                  (seq 0 100) = true) as Hall by (vm_compute; reflexivity).
  rewrite forallb_forall in Hall.
  specialize (Hall (Z.to_nat n)). rewrite Z2Nat.id in Hall by lia.
  apply Nat.eqb_eq, Hall. apply in_seq. lia.
Qed.

Lemma string_app_nil (t : string) : "" +:+ t = t.
Proof. reflexivity. Qed.

Lemma string_length_app (s t : string) :
  String.length (s +:+ t) = (String.length s + String.length t)%nat.
Proof.
  induction s as [|a s IH]; [done|].
  rewrite string_app_cons. simpl. by rewrite IH.
Qed.

Lemma string_app_inj_length (s1 s2 t1 t2 : string) :
  String.length t1 = String.length t2 →
  s1 +:+ t1 = s2 +:+ t2 → s1 = s2 ∧ t1 = t2.
Proof.
  revert s2. induction s1 as [|a s1 IH]; intros [|b s2] Hlen Heq;
    rewrite ?string_app_nil, ?string_app_cons in Heq.
  - done.
  - subst t1. simpl in Hlen. rewrite string_length_app in Hlen. lia.
  - subst t2. simpl in Hlen. rewrite string_length_app in Hlen. lia.
  - injection Heq as -> Heq. destruct (IH s2 Hlen Heq) as [-> ->]. done.
Qed.

(** X28. The display of a record determines its current total: two
    records, at whatever clock readings, are shown with the same text
    exactly when their current totals are equal.  For a total of less
    than a hundred hours, and not negative, the text has the eight
    characters of HH:MM:SS. *)
Theorem get_formatted_time_shows_total now r now' r' :
  (get_formatted_time now r = get_formatted_time now' r'
   ↔ get_current_total_seconds now r = get_current_total_seconds now' r')
  ∧ (0 ≤ get_current_total_seconds now r < 360000 →
     String.length (get_formatted_time now r) = 8%nat).
Proof.
  unfold get_formatted_time. cbv zeta.
  set (t := get_current_total_seconds now r).
  set (t' := get_current_total_seconds now' r').
  split; [split|].
  - intros Heq.
    assert (∀ x, String.length (format_02d (x mod 3600 / 60)) = 2%nat) as Hm.
    { intros x. apply format_02d_length.
      pose proof (Z.mod_pos_bound x 3600 ltac:(lia)).
      split; [apply Z.div_pos; lia|].
      apply Z.div_lt_upper_bound; lia. }
    assert (∀ x, String.length (format_02d (x mod 60)) = 2%nat) as Hs.
    { intros x. apply format_02d_length.
      pose proof (Z.mod_pos_bound x 60 ltac:(lia)). lia. }
    apply string_app_inj_length in Heq as [Hh Heq]; cycle 1.
    { rewrite !string_app_cons, !string_app_nil. simpl.
      rewrite !string_length_app, !Hm. simpl. by rewrite !Hs. }
    rewrite !string_app_cons, !string_app_nil in Heq. injection Heq as Heq.
    apply string_app_inj_length in Heq as [Hmin Heq]; cycle 1.
    { simpl. by rewrite !Hs. }
    injection Heq as Hsec.
    apply format_02d_inj in Hh, Hmin, Hsec.
    pose proof (Z.div_mod t 3600 ltac:(lia)).
    pose proof (Z.div_mod t' 3600 ltac:(lia)).
    pose proof (Z.div_mod (t mod 3600) 60 ltac:(lia)).
    pose proof (Z.div_mod (t' mod 3600) 60 ltac:(lia)).
    assert (∀ x, (x mod 3600) mod 60 = x mod 60) as Hmod.
    { intros x. apply Z.mod_mod_divide. by exists 60. }
    rewrite Hmod in *. lia.
  - by intros ->.
  - intros Ht. rewrite !string_length_app. simpl.
    rewrite !format_02d_length; [done|..].
    + pose proof (Z.mod_pos_bound t 60 ltac:(lia)). lia.
    + pose proof (Z.mod_pos_bound t 3600 ltac:(lia)).
      split; [apply Z.div_pos; lia|]. apply Z.div_lt_upper_bound; lia.
    + split; [apply Z.div_pos; lia|]. apply Z.div_lt_upper_bound; lia.
Qed.

Local Close Scope Z_scope.

(** * Concrete cases of the further properties *)

Lemma records_dated_by_list (recs : gmap string TimeRecord) :
  Forall (λ dr, date dr.2 = dr.1) (map_to_list recs) → records_dated recs.
Proof.
  intros Hall d r Hr. rewrite Forall_forall in Hall.
  apply (Hall (d, r)). by apply elem_of_map_to_list.
Qed.

Lemma project_dated_by_list p :
  Forall (λ dr, date dr.2 = dr.1) (map_to_list (time_records p)) →
  Forall (λ sub, Forall (λ dr, date dr.2 = dr.1)
                        (map_to_list (sub_time_records sub)))
         (sub_activities p) →
  project_dated p.
Proof.
  intros Hp Hsubs. split; [by apply records_dated_by_list|].
  eapply Forall_impl; [exact Hsubs|]. intros sub.
  apply records_dated_by_list.
Qed.

Lemma projects_dated_by_list (ps : list Project) :
  Forall (λ p, Forall (λ dr, date dr.2 = dr.1) (map_to_list (time_records p))
               ∧ Forall (λ sub, Forall (λ dr, date dr.2 = dr.1)
                                       (map_to_list (sub_time_records sub)))
                        (sub_activities p)) ps →
  Forall project_dated ps.
Proof.
  intros Hps. eapply Forall_impl; [exact Hps|].
  intros p [Hp Hsubs]. by apply project_dated_by_list.
Qed.

Lemma alpha_from_yesterday_dated :
  Forall project_dated (projects Scenario.alpha_from_yesterday).
Proof.
  apply projects_dated_by_list, (bool_decide_unpack _).
  vm_compute. reflexivity.
Qed.

Lemma stop_timing_banks_what_is_displayed_witness :
  (total_seconds Day.running + 1
   ≤ get_current_total_seconds (Scenario.at_second 1000) Day.running)%Z.
Proof.
  destruct (stop_timing_banks_what_is_displayed (Scenario.at_second 1000)
              Day.running) as (_ & _ & Hopen).
  apply (Hopen (Scenario.at_second 1000)). reflexivity.
Defined.

Lemma run_calls_keep_record_consistent_witness :
  record_consistent
    (run_calls Scenario.running_without_start
       [StartTiming 5000000; StopTiming 65000000]).
Proof.
  apply (run_calls_keep_record_consistent Scenario.running_without_start
           [StartTiming 5000000; StopTiming 65000000]).
  right. exists 5000000%Z. constructor.
Defined.

Lemma get_today_record_lookup_witness :
  (get_today_record Scenario.today ∅).2
  = mkTimeRecord Scenario.today 0 None false ∅.
Proof.
  destruct (get_today_record_lookup Scenario.today ∅)
    as (_ & _ & _ & Hnew & _).
  apply Hnew. reflexivity.
Defined.





Lemma selection_stays_valid_witness :
  selection_valid (remove_project "alpha" Scenario.alpha_dev).1
  ∧ selection_valid
      (start_current_timer Scenario.today (Scenario.at_second 1000)
         Scenario.alpha_dev).1.
Proof.
  destruct (selection_stays_valid Scenario.alpha_dev)
    as (_ & _ & _ & Hremove & _ & Hstart & _).
  - intros a [= <-]. eexists. split; [reflexivity|]. eexists. reflexivity.
  - split; [apply Hremove|apply Hstart].
Defined.

Lemma get_current_project_after_set_witness :
  get_current_sub_activity (set_current_project "alpha" Scenario.alpha_dev).1
  = None
  ∧ get_current_project (set_current_project "alpha" Scenario.alpha_dev).1
    = get_project "alpha" Scenario.alpha_dev.
Proof.
  destruct (get_current_project_after_set "alpha" Scenario.alpha_dev)
    as (Hsub & Hproject & _).
  - reflexivity.
  - split; [exact Hsub|]. apply Hproject. discriminate.
Defined.

Lemma get_current_sub_activity_after_set_witness :
  ∃ sub,
    get_current_sub_activity
      (set_current_sub_activity (Some "test") Scenario.alpha_selected).1
    = Some sub
    ∧ sub_alias sub = "test".
Proof.
  destruct (get_current_sub_activity_after_set "test" Scenario.alpha_selected)
    as (_ & _ & Hcurrent & _).
  apply Hcurrent; [reflexivity|discriminate].
Defined.

Lemma stop_all_timers_stops_today_witness :
  projects_running_at Scenario.today
    (stop_all_timers Scenario.today (Scenario.at_second 1060)
       Day.two_projects) = 0
  ∧ subs_running_at Scenario.today
      (stop_all_timers Scenario.today (Scenario.at_second 1060)
         Day.two_projects) = 0.
Proof.
  destruct (stop_all_timers_stops_today Scenario.today
              (Scenario.at_second 1060) Day.two_projects)
    as (_ & _ & Hquiet).
  apply Hquiet. repeat constructor.
Defined.


Lemma switch_project_runs_selected_witness :
  let m' := (start_current_timer Scenario.today (Scenario.at_second 1120)
               (stop_all_timers Scenario.today (Scenario.at_second 1060)
                  (set_current_project "beta" Day.two_projects).1)).1 in
  projects_running_at Scenario.today m' = 1
  ∧ subs_running_at Scenario.today m' = 0
  ∧ current_project_alias m' = Some "beta".
Proof.
  intros m'.
  destruct (switch_project_runs_selected Scenario.today
              (Scenario.at_second 1060) (Scenario.at_second 1120) "beta"
              Day.two_projects)
    as (Hprojects & Hsubs & Hcurrent & _).
  - repeat constructor.
  - discriminate.
  - eexists. reflexivity.
  - split; [exact Hprojects|]. split; [exact Hsubs|exact Hcurrent].
Defined.

Lemma load_projects_after_save_witness :
  projects
    (load_projects
       (data_file
          (save_projects Scenario.stem
             (Scenario.save_at true 1000 "20250813_101640")
             Scenario.alpha_from_yesterday Scenario.no_files).1.2)
       Scenario.fresh).1
  = projects Scenario.alpha_from_yesterday.
Proof.
  destruct (load_projects_after_save Scenario.stem
              (Scenario.save_at true 1000 "20250813_101640")
              Scenario.alpha_from_yesterday Scenario.no_files Scenario.fresh)
    as (_ & Hsaved).
  - exact alpha_from_yesterday_dated.
  - destruct Hsaved as (_ & Hprojects & _); [reflexivity|reflexivity|].
    exact Hprojects.
Defined.

Lemma records_stay_dated_witness :
  Forall project_dated
         (projects (stop_all_timers Scenario.today (Scenario.at_second 90000)
                      Scenario.alpha_from_yesterday)).
Proof.
  destruct (records_stay_dated Scenario.alpha_from_yesterday)
    as (_ & _ & _ & _ & Hstop & _).
  - exact alpha_from_yesterday_dated.
  - apply Hstop.
Defined.

Lemma save_projects_effect_witness :
  (save_projects Scenario.stem (Scenario.save_at true 1000 "20250813_101640")
     Scenario.alpha_dev Scenario.no_files).2 = true.
Proof.
  destruct (save_projects_effect Scenario.stem
              (Scenario.save_at true 1000 "20250813_101640")
              Scenario.alpha_dev Scenario.no_files)
    as (_ & _ & _ & _ & _ & _ & Hforced & _).
  apply Hforced; reflexivity.
Defined.

Lemma first_save_is_due_witness :
  (save_projects Scenario.stem (Scenario.save_at false 1000 "20250813_101640")
     (init_manager (Scenario.at_second 1000) Scenario.cfg)
     Scenario.no_files).2 = true.
Proof.
  destruct (first_save_is_due Scenario.stem (Scenario.at_second 1000)
              Scenario.cfg (Scenario.save_at false 1000 "20250813_101640")
              Scenario.no_files) as [Hdue _].
  - simpl. lia.
  - reflexivity.
  - exact Hdue.
Defined.



Lemma toggle_sub_activity_runs_one_witness :
  let m' := toggle_sub_activity Scenario.today (Scenario.at_second 1060)
              (Scenario.at_second 1060) "dev" Scenario.alpha_dev in
  projects_running_at Scenario.today m' = 1
  ∧ subs_running_at Scenario.today m' = 1
  ∧ current_sub_activity_alias m' = Some "dev".
Proof.
  intros m'.
  destruct (toggle_sub_activity_runs_one Scenario.today
              (Scenario.at_second 1060) (Scenario.at_second 1060) "dev"
              Scenario.alpha_dev 0
              (default (mkProject "" "" "" [] ∅)
                       (projects Scenario.alpha_dev !! 0))
              0 (mkSubActivity "Sub Activity dev" "dev" ∅))
    as (Hprojects & _ & Hsubs & Hselected & _).
  - repeat constructor.
  - discriminate.
  - reflexivity.
  - reflexivity.
  - reflexivity.
  - split; [exact Hprojects|]. split; [exact Hsubs|exact Hselected].
Defined.


Lemma switch_environment_and_back_witness :
  let r1 := switch_environment Day.data_file_of Day.stem_of DEVELOPMENT
              (Scenario.save_at true 1000 "20250813_101640")
              Day.session Day.empty_disk in
  let r2 := switch_environment Day.data_file_of Day.stem_of PROTOTYPE
              (Scenario.save_at true 1060 "20250813_101740")
              r1.1.1 r1.1.2 in
  r2.2 = Value true
  ∧ projects (manager r2.1.1) = projects Scenario.alpha_from_yesterday.
Proof.
  intros r1 r2.
  destruct (switch_environment_and_back Day.data_file_of Day.stem_of
              DEVELOPMENT (Scenario.save_at true 1000 "20250813_101640")
              (Scenario.save_at true 1060 "20250813_101740")
              Day.session Day.empty_disk)
    as (Htrue & Hprojects & _).
  - reflexivity.
  - discriminate.
  - reflexivity.
  - exact alpha_from_yesterday_dated.
  - split; [exact Htrue|exact Hprojects].
Defined.

Lemma get_formatted_time_shows_total_witness :
  String.length (get_formatted_time (Scenario.at_second 4725) Day.running) = 8.
Proof.
  destruct (get_formatted_time_shows_total (Scenario.at_second 4725)
              Day.running (Scenario.at_second 4725) Day.running)
    as [_ Hlength].
  apply Hlength. vm_compute. split; [discriminate|reflexivity].
Defined.
